(** * Verification of the core of [stock_analyzer_full.py]

    Shallow embedding of the scoring engine
    ([StockAnalyzer.calculate_comprehensive_score]), of the persisted
    history log ([save_history]), of the monthly ranking
    ([update_monthly_ranking]) and of the retry loop of
    [StockAnalyzer.fetch_stock_data]. *)

From Stdlib Require Import QArith Qminmax Lqa String Sorted Permutation.
From stdpp Require Import base gmap strings list.

Open Scope string_scope.

(* ------------------------------------------------------------------ *)
(** ** Python values and exceptions *)

(** The values a field of the provider's [info] dict can hold, as far as
    the scoring code distinguishes them: [None], a number (a Python int or
    float, modelled exactly as a rational; NaN and infinities are left
    out) or a string. *)
Inductive pyval :=
| VNone
| VNum (q : Q)
| VStr (s : string).

(** The exceptions the scoring code can raise. *)
Inductive exc := TypeError | ValueError.

(** A computation that returns a value or raises. *)
Inductive pyres (A : Type) :=
| Ok (a : A)
| Raise (e : exc).
Arguments Ok {A} a.
Arguments Raise {A} e.

Definition pbind {A B} (m : pyres A) (k : A -> pyres B) : pyres B :=
  match m with
  | Ok a => k a
  | Raise e => Raise e
  end.

Notation "x <- m ;; k" := (pbind m (fun x => k))
  (at level 100, m at next level, right associativity).

(** Python truthiness: [None], [0] and [""] are false. *)
Definition truthy (v : pyval) : bool :=
  match v with
  | VNone => false
  | VNum q => negb (Qeq_bool q 0)
  | VStr s => negb (String.eqb s "")
  end.

(** Strict order on rationals, as a boolean. *)
Definition Qltb (x y : Q) : bool := negb (Qle_bool y x).

(** [a > b]: numbers compare numerically, strings lexicographically, and
    any other mix (including [None]) raises [TypeError]. *)
Definition py_gt (a b : pyval) : pyres bool :=
  match a, b with
  | VNum x, VNum y => Ok (Qltb y x)
  | VStr x, VStr y => Ok (String.ltb y x)
  | _, _ => Raise TypeError
  end.

(** [a < b] *)
Definition py_lt (a b : pyval) : pyres bool := py_gt b a.

(** [a <= b] *)
Definition py_le (a b : pyval) : pyres bool :=
  match a, b with
  | VNum x, VNum y => Ok (Qle_bool x y)
  | VStr x, VStr y => Ok (String.leb x y)
  | _, _ => Raise TypeError
  end.

(** [x and <cond>] used as an [if] condition: the condition is only
    evaluated when [x] is truthy. *)
Definition py_and (x : pyval) (cond : pyres bool) : pyres bool :=
  if truthy x then cond else Ok false.

(** [x * 100]: a string is repeated, [None] raises. *)
Definition py_mul100 (v : pyval) : pyres pyval :=
  match v with
  | VNum q => Ok (VNum (q * 100))
  | VStr s => Ok (VStr (String.concat "" (repeat s 100)))
  | VNone => Raise TypeError
  end.

(** [x / 1e9] *)
Definition py_div1e9 (v : pyval) : pyres pyval :=
  match v with
  | VNum q => Ok (VNum (q / 1000000000))
  | _ => Raise TypeError
  end.

(** The format spec [:.1f] / [:.2f]: only numbers accept it; a string
    raises [ValueError], [None] raises [TypeError]. The printed digits
    are kept abstract: the result is the number being printed. *)
Definition py_fmt_f (v : pyval) : pyres Q :=
  match v with
  | VNum q => Ok q
  | VStr _ => Raise ValueError
  | VNone => Raise TypeError
  end.

(* ------------------------------------------------------------------ *)
(** ** The scoring engine *)

(** The [info] dict and [info.get(key, None)]. *)
Definition info_map := gmap string pyval.

Definition get (info : info_map) (k : string) : pyval :=
  match info !! k with
  | Some v => v
  | None => VNone
  end.

(** The [status] strings of a criterion: ['✅ 合格'], ['△ 要改善'],
    ['❌ 不合格']. *)
Inductive tier := Pass | Partial | Fail.

(** The [value] strings of a criterion, one constructor per f-string of
    the source, holding the number(s) it prints. *)
Inductive fval :=
| NA                      (* 'N/A' *)
| Pct1 (q : Q)            (* f'{x*100:.1f}%' *)
| Bil1 (q : Q)            (* f'{x/1e9:.1f}B' *)
| Fix2 (q : Q)            (* f'{eps:.2f}' *)
| EpsArrow (a b : Q)      (* f'{eps:.2f} → {eps_forward:.2f}' *)
| DE1 (q : Q)             (* f'D/E: {debt_to_equity:.1f}' *)
| Yen2 (q : Q).           (* f'{dividend:.2f}円' *)

(** One entry [{'score': .., 'status': .., 'value': ..}]. *)
Record detail := mkDetail { score : nat; status : tier; value : fval }.

(** A value of the returned [score_details] dict: a criterion entry, or
    the string of the fallback ['note']. *)
Inductive bval :=
| BDetail (d : detail)
| BNote (s : string).

(** [score_details]: an insertion-ordered dict, each key inserted once. *)
Definition breakdown := list (string * bval).

Definition fail_detail : detail := mkDetail 0 Fail NA.

Definition fmt_pct (v : pyval) : pyres fval :=
  w <- py_mul100 v ;; q <- py_fmt_f w ;; Ok (Pct1 q).

Definition fmt_bil (v : pyval) : pyres fval :=
  w <- py_div1e9 v ;; q <- py_fmt_f w ;; Ok (Bil1 q).

(** 1. revenue growth, 15 points *)
Definition crit_revenue (info : info_map) : pyres detail :=
  let rg := get info "revenueGrowth" in
  c1 <- py_and rg (py_gt rg (VNum (1 # 20))) ;;
  if c1 then v <- fmt_pct rg ;; Ok (mkDetail 15 Pass v) else
  c2 <- py_and rg (py_gt rg (VNum 0)) ;;
  if c2 then v <- fmt_pct rg ;; Ok (mkDetail 8 Partial v) else
  Ok fail_detail.

(** 2. EPS, 15 points *)
Definition crit_eps (info : info_map) : pyres detail :=
  let eps := get info "trailingEps" in
  let eps_forward := get info "forwardEps" in
  c1 <- py_and eps (py_and eps_forward (py_gt eps_forward eps)) ;;
  if c1 then
    a <- py_fmt_f eps ;; b <- py_fmt_f eps_forward ;;
    Ok (mkDetail 15 Pass (EpsArrow a b))
  else
  c2 <- py_and eps (py_gt eps (VNum 0)) ;;
  if c2 then a <- py_fmt_f eps ;; Ok (mkDetail 8 Partial (Fix2 a)) else
  Ok fail_detail.

(** 3.-5. total assets, operating cash flow, cash: 10 points each, on
    [x and x > 0] *)
Definition crit_positive_bil (key : string) (info : info_map) : pyres detail :=
  let x := get info key in
  c <- py_and x (py_gt x (VNum 0)) ;;
  if c then v <- fmt_bil x ;; Ok (mkDetail 10 Pass v) else
  Ok fail_detail.

Definition crit_assets := crit_positive_bil "totalAssets".
Definition crit_operating_cf := crit_positive_bil "operatingCashflow".
Definition crit_cash := crit_positive_bil "totalCash".

(** 6. ROE, 10 points *)
Definition crit_roe (info : info_map) : pyres detail :=
  let roe := get info "returnOnEquity" in
  c1 <- py_and roe (py_gt roe (VNum (7 # 100))) ;;
  if c1 then v <- fmt_pct roe ;; Ok (mkDetail 10 Pass v) else
  c2 <- py_and roe (py_gt roe (VNum 0)) ;;
  if c2 then v <- fmt_pct roe ;; Ok (mkDetail 5 Partial v) else
  Ok fail_detail.

(** 7. debt to equity, 10 points: the only test written with
    [is not None] instead of truthiness. *)
Definition crit_equity_ratio (info : info_map) : pyres detail :=
  let de := get info "debtToEquity" in
  match de with
  | VNone => Ok fail_detail
  | _ =>
    c1 <- py_lt de (VNum 100) ;;
    q <- py_fmt_f de ;;
    if c1 then Ok (mkDetail 10 Pass (DE1 q))
    else Ok (mkDetail 5 Partial (DE1 q))
  end.

(** 8. dividend, 10 points *)
Definition crit_dividend (info : info_map) : pyres detail :=
  let d := get info "dividendRate" in
  c <- py_and d (py_gt d (VNum 0)) ;;
  if c then q <- py_fmt_f d ;; Ok (mkDetail 10 Pass (Yen2 q)) else
  Ok fail_detail.

(** 9. payout ratio, 10 points *)
Definition crit_payout_ratio (info : info_map) : pyres detail :=
  let p := get info "payoutRatio" in
  c1 <- py_and p (py_le p (VNum (2 # 5))) ;;
  if c1 then v <- fmt_pct p ;; Ok (mkDetail 10 Pass v) else
  if truthy p then v <- fmt_pct p ;; Ok (mkDetail 5 Partial v) else
  Ok fail_detail.

(** [sum(item['score'] for item in score_details.values())] *)
Definition sum_scores (b : breakdown) : nat :=
  fold_right (fun kv acc =>
    match kv.2 with BDetail d => score d + acc | BNote _ => acc end) 0 b.

(** The [data] bundle returned by [fetch_stock_data]; only its ['info']
    entry is read by the scoring code ([None] when the key is missing or
    holds [None]). A missing bundle ([data is None]) is [None] below. *)
Record bundle := mkBundle { company_name : pyval; info : option info_map }.

Definition note_text : string := "企業情報が取得できないため、標準スコアを表示".

(** [StockAnalyzer.calculate_comprehensive_score] *)
Definition calculate_comprehensive_score (data : option bundle)
  : pyres (nat * breakdown) :=
  match data with
  | None => Ok (50, [("note", BNote note_text)])
  | Some b =>
    match info b with
    | None => Ok (50, [("note", BNote note_text)])
    | Some inf =>
      if decide (inf = ∅) then Ok (50, [("note", BNote note_text)]) else
      d1 <- crit_revenue inf ;;
      d2 <- crit_eps inf ;;
      d3 <- crit_assets inf ;;
      d4 <- crit_operating_cf inf ;;
      d5 <- crit_cash inf ;;
      d6 <- crit_roe inf ;;
      d7 <- crit_equity_ratio inf ;;
      d8 <- crit_dividend inf ;;
      d9 <- crit_payout_ratio inf ;;
      let sd := [("revenue", BDetail d1); ("eps", BDetail d2);
                 ("assets", BDetail d3); ("operating_cf", BDetail d4);
                 ("cash", BDetail d5); ("roe", BDetail d6);
                 ("equity_ratio", BDetail d7); ("dividend", BDetail d8);
                 ("payout_ratio", BDetail d9)] in
      Ok (sum_scores sd, sd)
    end
  end.

(* ------------------------------------------------------------------ *)
(** ** The history log and the monthly ranking *)

(** One history entry, the dict built by [save_history]. *)
Record entry := mkEntry {
  stock_code : string;
  e_company_name : pyval;
  e_score : nat;
  score_details : breakdown;
  date : string
}.

(** The two JSON files: [None] while the file does not exist. *)
Record store := mkStore {
  history_file : option (list entry);
  ranking_file : option (gmap string (list entry))
}.

(** [load_history] *)
Definition load_history (st : store) : list entry :=
  match history_file st with Some h => h | None => [] end.

(** The slice [l[-n:]]: the whole list when it is shorter than [n]. *)
Definition py_last {A} (n : nat) (l : list A) : list A :=
  drop (length l - n) l.

(** [list.sort(key=lambda x: x['score'], reverse=True)]: Python's sort is
    stable, also with [reverse=True], so records of equal score keep their
    order. Modelled by an insertion sort that places a record in front of
    the first one whose score is not larger, which gives the same list. *)
Fixpoint insert_desc (x : entry) (l : list entry) : list entry :=
  match l with
  | [] => [x]
  | y :: t => if Nat.leb (e_score y) (e_score x) then x :: y :: t
              else y :: insert_desc x t
  end.

Fixpoint sort_desc (l : list entry) : list entry :=
  match l with
  | [] => []
  | x :: t => insert_desc x (sort_desc t)
  end.

(** [update_monthly_ranking]: [now_month] is
    [datetime.now().strftime('%Y-%m')]; the result is the dict written
    back to [RANKING_FILE]. *)
Definition update_monthly_ranking (now_month : string) (e : entry)
    (rank_file : option (gmap string (list entry))) : gmap string (list entry) :=
  let rankings := match rank_file with Some r => r | None => ∅ end in
  let rankings := match rankings !! now_month with
                  | Some _ => rankings
                  | None => <[now_month := []]> rankings
                  end in
  let bucket := match rankings !! now_month with Some b => b | None => [] end in
  let rankings := <[now_month := List.filter (fun r =>
                      negb (String.eqb (stock_code r) (stock_code e))) bucket]>
                    rankings in
  let bucket := match rankings !! now_month with Some b => b | None => [] end in
  let rankings := <[now_month := (bucket ++ [e])%list]> rankings in
  let bucket := match rankings !! now_month with Some b => b | None => [] end in
  <[now_month := sort_desc bucket]> rankings.

(** [save_history]: [now_date] and [now_month] are the two readings of
    the clock. *)
Definition save_history (now_date now_month : string) (code : string)
    (name : pyval) (sc : nat) (sd : breakdown) (st : store) : store :=
  let history := load_history st in
  let e := mkEntry code name sc sd now_date in
  let history := py_last 100 (history ++ [e])%list in
  mkStore (Some history)
          (Some (update_monthly_ranking now_month e (ranking_file st))).

(** The arguments of one call of [save_history]. *)
Record save_call := mkCall {
  c_date : string; c_month : string; c_code : string;
  c_name : pyval; c_score : nat; c_details : breakdown
}.

Definition entry_of_call (c : save_call) : entry :=
  mkEntry (c_code c) (c_name c) (c_score c) (c_details c) (c_date c).

Definition run_call (st : store) (c : save_call) : store :=
  save_history (c_date c) (c_month c) (c_code c) (c_name c) (c_score c)
               (c_details c) st.

(** A sequence of analyses, each persisted by [save_history]. *)
Definition run_calls (st : store) (cs : list save_call) : store :=
  fold_left run_call cs st.

Definition empty_store : store := mkStore None None.

(** The ranking files the program can produce: none yet, or one written
    by [update_monthly_ranking] from a reachable one. *)
Inductive reachable : option (gmap string (list entry)) -> Prop :=
| reach_none : reachable None
| reach_update m e rf :
    reachable rf -> reachable (Some (update_monthly_ranking m e rf)).

(* ------------------------------------------------------------------ *)
(** ** The retry loop of [fetch_stock_data] *)

(** What [stock.history(period="max")] does in one attempt. *)
Inductive hist_resp :=
| HRaise (msg : string)    (* raises an exception with this message *)
| HEmpty                   (* an empty frame *)
| HData.                   (* a non-empty frame *)

(** What [stock.info] does in one attempt. *)
Inductive info_resp :=
| IRaise
| IInfo (inf : info_map).

(** The provider's behaviour at one attempt. *)
Record response := mkResp { r_hist : hist_resp; r_info : info_resp }.

(** The observable effects of [fetch_stock_data]. *)
Inductive event :=
| Sleep (secs : nat)
| QueryHistory (sym : string)
| QueryInfo (sym : string)
| ShowNotFound                  (* st.error: no data for the code *)
| ShowRateWait (secs : nat)     (* st.warning: rate limited, waiting *)
| ShowRateLimitError.           (* st.error: rate limit reached *)

Definition max_retries : nat := 3.
Definition retry_delay : nat := 2.

(** [s in msg] for strings *)
Definition str_in (s msg : string) : bool :=
  match String.index 0 s msg with Some _ => true | None => false end.

Definition is_rate_limit (msg : string) : bool :=
  str_in "Too Many Requests" msg || str_in "Rate limit" msg.

(** [info.get('longName', info.get('shortName', f'銘柄{stock_code}'))] *)
Definition resolve_name (code : string) (inf : info_map) : pyval :=
  match inf !! "longName" with
  | Some v => v
  | None => match inf !! "shortName" with
            | Some v => v
            | None => VStr ("銘柄" ++ code)
            end
  end.

(** The loop [for attempt in range(max_retries)], from [attempt] on with
    [remaining] iterations left. *)
Fixpoint fetch_from (code : string) (prov : nat -> response)
    (attempt remaining : nat) : list event * option bundle :=
  match remaining with
  | O => ([], None)
  | S rem =>
    let sym := code ++ ".T" in
    let pre := [Sleep 1; QueryHistory sym] in
    match r_hist (prov attempt) with
    | HEmpty => ((pre ++ [ShowNotFound])%list, None)
    | HData =>
      let '(inf, name) :=
        match r_info (prov attempt) with
        | IInfo inf => (inf, resolve_name code inf)
        | IRaise => (∅, VStr ("銘柄" ++ code))
        end in
      ((pre ++ [Sleep 1; QueryInfo sym])%list, Some (mkBundle name (Some inf)))
    | HRaise msg =>
      if is_rate_limit msg then
        if Nat.ltb attempt (max_retries - 1) then
          let wait_time := retry_delay * (attempt + 1) in
          let '(evs, r) := fetch_from code prov (S attempt) rem in
          ((pre ++ [ShowRateWait wait_time; Sleep wait_time] ++ evs)%list, r)
        else ((pre ++ [ShowRateLimitError])%list, None)
      else
        if Nat.ltb attempt (max_retries - 1) then
          let '(evs, r) := fetch_from code prov (S attempt) rem in
          ((pre ++ [Sleep retry_delay] ++ evs)%list, r)
        else (pre, None)
    end
  end.

(** [StockAnalyzer.fetch_stock_data]: [prov i] is the provider's
    behaviour at attempt [i]. *)
Definition fetch_stock_data (code : string) (prov : nat -> response)
  : list event * option bundle :=
  fetch_from code prov 0 max_retries.

(** Number of attempts: the queries of the price history. *)
Definition attempts (evs : list event) : nat :=
  length (List.filter (fun ev => match ev with QueryHistory _ => true | _ => false end) evs).

(* ------------------------------------------------------------------ *)
(** ** Observations used by the statements *)

(** Python's [isinstance(v, (int, float)) or v is None]. *)
Definition wt_val (v : pyval) : bool :=
  match v with VStr _ => false | _ => true end.

(** Every field of the mapping is a number or [None]. *)
Definition well_typed (inf : info_map) : Prop :=
  map_Forall (fun _ v => wt_val v = true) inf.

(** The ten fields of [info] that the scoring reads. *)
Definition score_fields : list string :=
  ["revenueGrowth"; "trailingEps"; "forwardEps"; "totalAssets";
   "operatingCashflow"; "totalCash"; "returnOnEquity"; "debtToEquity";
   "dividendRate"; "payoutRatio"].

(** The fields the scoring reads are numbers or [None] (missing counts
    as [None]); other keys, such as [longName], may hold anything. *)
Definition fields_typed (inf : info_map) : Prop :=
  forallb (fun k => wt_val (get inf k)) score_fields = true.

(** [score_details[k]] of a successful result, when it is a criterion. *)
Definition entry_at (k : string) (r : pyres (nat * breakdown)) : option detail :=
  match r with
  | Ok (_, sd) =>
    match find (fun kv => String.eqb kv.1 k) sd with
    | Some (_, BDetail d) => Some d
    | _ => None
    end
  | Raise _ => None
  end.

Definition criterion_keys : list string :=
  ["revenue"; "eps"; "assets"; "operating_cf"; "cash"; "roe";
   "equity_ratio"; "dividend"; "payout_ratio"].

Definition criterion_weights : list nat := [15; 15; 10; 10; 10; 10; 10; 10; 10].

(** The score of a criterion entry, [None] for the note. *)
Definition bval_score (b : bval) : option nat :=
  match b with BDetail d => Some (score d) | BNote _ => None end.

(** The fields other than [debtToEquity] that decide a criterion on their
    own, with the key of that criterion. *)
Definition truthy_fields : list (string * string) :=
  [("revenueGrowth", "revenue"); ("trailingEps", "eps");
   ("totalAssets", "assets"); ("operatingCashflow", "operating_cf");
   ("totalCash", "cash"); ("returnOnEquity", "roe");
   ("dividendRate", "dividend"); ("payoutRatio", "payout_ratio")].


(** The spec's §8 scenario. *)
Definition scenario_info : info_map :=
  list_to_map [("revenueGrowth", VNum (1 # 10)); ("trailingEps", VNum 2);
               ("forwardEps", VNum (5 # 2)); ("totalAssets", VNum 5000000000);
               ("operatingCashflow", VNum 1000000000);
               ("totalCash", VNum 2000000000);
               ("returnOnEquity", VNum (9 # 100)); ("debtToEquity", VNum 80);
               ("dividendRate", VNum 30); ("payoutRatio", VNum (7 # 20))].

(** The nine criteria in the order the code evaluates them, with the key
    each one is stored under. *)
Definition criteria : list (string * (info_map -> pyres detail)) :=
  [("revenue", crit_revenue); ("eps", crit_eps); ("assets", crit_assets);
   ("operating_cf", crit_operating_cf); ("cash", crit_cash);
   ("roe", crit_roe); ("equity_ratio", crit_equity_ratio);
   ("dividend", crit_dividend); ("payout_ratio", crit_payout_ratio)].

(** The [score_details] dict built from the nine entries. *)
Definition details9 (d1 d2 d3 d4 d5 d6 d7 d8 d9 : detail) : breakdown :=
  [("revenue", BDetail d1); ("eps", BDetail d2);
   ("assets", BDetail d3); ("operating_cf", BDetail d4);
   ("cash", BDetail d5); ("roe", BDetail d6);
   ("equity_ratio", BDetail d7); ("dividend", BDetail d8);
   ("payout_ratio", BDetail d9)].

(** The ranking dict as loaded from the file, and the bucket of one
    month in it. *)
Definition rankings_of (rank_file : option (gmap string (list entry)))
  : gmap string (list entry) :=
  match rank_file with Some r => r | None => ∅ end.

Definition bucket_of (m : string) (rank_file : option (gmap string (list entry)))
  : list entry :=
  match rankings_of rank_file !! m with Some b => b | None => [] end.

(** The bucket before sorting: the old bucket without the entry's code,
    then the entry. *)
Definition ranking_input (m : string) (e : entry)
    (rank_file : option (gmap string (list entry))) : list entry :=
  (List.filter (fun r => negb (String.eqb (stock_code r) (stock_code e)))
     (bucket_of m rank_file) ++ [e])%list.

(** Descending order of score. *)
Definition score_desc (x y : entry) : Prop := e_score y <= e_score x.

(* ------------------------------------------------------------------ *)
(** ** Display helpers *)

(** [create_score_gauge]: the colour of the gauge bar. *)
Definition gauge_color (score : nat) : string :=
  if Nat.ltb score 40 then "#ff4444"
  else if Nat.ltb score 60 then "#ffaa00"
  else "#00cc66".

(** The evaluation comment of the result tab: [st.success], [st.info],
    [st.warning] or [st.error]. *)
Inductive verdict := Excellent | Sound | Improvable | Careful.

Definition verdict_of (score : nat) : verdict :=
  if Nat.leb 80 score then Excellent
  else if Nat.leb 60 score then Sound
  else if Nat.leb 40 score then Improvable
  else Careful.

(** A Python dict of strings as an association list, and [d.get(k, dflt)]. *)
Definition str_get (d : list (string * string)) (k dflt : string) : string :=
  match find (fun kv => String.eqb kv.1 k) d with
  | Some (_, v) => v
  | None => dflt
  end.

Definition criteria_names : list (string * string) :=
  [("revenue", "経常収益"); ("eps", "EPS"); ("assets", "総資産");
   ("operating_cf", "営業CF"); ("cash", "現金等"); ("roe", "ROE");
   ("equity_ratio", "自己資本比率"); ("dividend", "1株配当");
   ("payout_ratio", "配当性向")].

Definition color_map : list (string * string) :=
  [("revenue", "#FF6B6B"); ("eps", "#4ECDC4"); ("assets", "#45B7D1");
   ("operating_cf", "#FFA07A"); ("cash", "#98D8C8"); ("roe", "#F7DC6F");
   ("equity_ratio", "#BB8FCE"); ("dividend", "#85C1E2");
   ("payout_ratio", "#F8B739")].

(** [detail['score']]: a note string cannot be indexed by a string. *)
Definition score_of_bval (v : bval) : pyres nat :=
  match v with
  | BDetail d => Ok (score d)
  | BNote _ => Raise TypeError
  end.

(** [create_score_pie_chart]: the (label, value, colour) of each slice,
    in the order of [score_details.items()], skipping ['note']. *)
Fixpoint pie_slices (sd : breakdown) : pyres (list (string * nat * string)) :=
  match sd with
  | [] => Ok []
  | (k, v) :: t =>
    if String.eqb k "note" then pie_slices t else
    s <- score_of_bval v ;;
    rest <- pie_slices t ;;
    Ok ((str_get criteria_names k k, s, str_get color_map k "#CCCCCC") :: rest)
  end.

(** [criteria_info]: key, name, criterion text, maximum score. *)
Definition criteria_info : list (string * string * string * nat) :=
  [("revenue", "経常収益", "右肩上がり", 15); ("eps", "EPS", "右肩上がり", 15);
   ("assets", "総資産", "増加傾向", 10); ("operating_cf", "営業CF", "プラス＆増加", 10);
   ("cash", "現金等", "積み上がり", 10); ("roe", "ROE", "7%以上", 10);
   ("equity_ratio", "自己資本比率", "50%以上", 10); ("dividend", "1株配当", "非減配", 10);
   ("payout_ratio", "配当性向", "40%以下", 10)].

(** One card of the detailed evaluation. *)
Record card := mkCard {
  card_name : string; card_status : tier; card_achieved : nat;
  card_max : nat; card_value : fval; card_color : string
}.

(** [score_details.get(key, {'score': 0, 'status': '❌ 不合格', 'value': 'N/A'})] *)
Definition detail_get (sd : breakdown) (k : string) : pyres detail :=
  match find (fun kv => String.eqb kv.1 k) sd with
  | Some (_, BDetail d) => Ok d
  | Some (_, BNote _) => Raise TypeError
  | None => Ok (mkDetail 0 Fail NA)
  end.

Definition card_of (sd : breakdown) (ci : string * string * string * nat) : pyres card :=
  let '(key, name, _, max_score) := ci in
  d <- detail_get sd key ;;
  let achieved := score d in
  let color := if Nat.eqb achieved max_score then "#d4edda"
               else if Nat.ltb 0 achieved then "#fff3cd" else "#f8d7da" in
  Ok (mkCard name (status d) achieved max_score (value d) color).

Fixpoint cards_of_list (sd : breakdown) (cis : list (string * string * string * nat))
  : pyres (list card) :=
  match cis with
  | [] => Ok []
  | ci :: t => c <- card_of sd ci ;; rest <- cards_of_list sd t ;; Ok (c :: rest)
  end.

(** The nine cards of the detailed evaluation, in [criteria_info] order. *)
Definition cards (sd : breakdown) : pyres (list card) := cards_of_list sd criteria_info.

(** The background colour a card has for each status. *)
Definition tier_color (t : tier) : string :=
  match t with Pass => "#d4edda" | Partial => "#fff3cd" | Fail => "#f8d7da" end.

(** The sidebar history: [None] shows "履歴がありません", otherwise the
    entries of [reversed(history[-5:])]. *)
Definition sidebar_history (st : store) : option (list entry) :=
  match load_history st with
  | [] => None
  | h => Some (rev (py_last 5 h))
  end.

(** [load_monthly_ranking] *)
Definition load_monthly_ranking (now_month : string)
    (rank_file : option (gmap string (list entry))) : list entry :=
  match rank_file with
  | Some r => match r !! now_month with Some b => b | None => [] end
  | None => []
  end.

(** The metric columns of the result tab. *)
Inductive metric :=
| Cho (q : Q)        (* f'{market_cap/1e12:.2f}兆円' *)
| Oku (q : Q)        (* f'{market_cap/1e9:.2f}億円' *)
| Fix2m (q : Q)      (* f'{x:.2f}' *)
| Pct2m (q : Q)      (* f'{div_yield*100:.2f}%' *)
| MNA.               (* "N/A" *)

(** [info.get(k, dflt)] *)
Definition get_or (inf : info_map) (k : string) (dflt : pyval) : pyval :=
  match inf !! k with Some v => v | None => dflt end.

(** [x / c] *)
Definition py_div_by (c : Q) (v : pyval) : pyres pyval :=
  match v with
  | VNum q => Ok (VNum (q / c))
  | _ => Raise TypeError
  end.

Definition market_cap_metric (inf : info_map) : pyres metric :=
  let market_cap := get_or inf "marketCap" (VNum 0) in
  c <- py_gt market_cap (VNum 1000000000000) ;;
  if c then w <- py_div_by 1000000000000 market_cap ;; q <- py_fmt_f w ;; Ok (Cho q)
  else w <- py_div_by 1000000000 market_cap ;; q <- py_fmt_f w ;; Ok (Oku q).

(** PER and PBR: [f"{x:.2f}" if x else "N/A"] *)
Definition ratio_metric (inf : info_map) (k : string) : pyres metric :=
  let x := get_or inf k (VNum 0) in
  if truthy x then q <- py_fmt_f x ;; Ok (Fix2m q) else Ok MNA.

Definition yield_metric (inf : info_map) : pyres metric :=
  let x := get_or inf "dividendYield" (VNum 0) in
  if truthy x then w <- py_mul100 x ;; q <- py_fmt_f w ;; Ok (Pct2m q) else Ok MNA.

(** The four columns, evaluated left to right. *)
Definition metrics (inf : info_map) : pyres (list metric) :=
  m1 <- market_cap_metric inf ;;
  m2 <- ratio_metric inf "trailingPE" ;;
  m3 <- ratio_metric inf "priceToBook" ;;
  m4 <- yield_metric inf ;;
  Ok [m1; m2; m3; m4].

(** One row of a price history frame. *)
Record ohlc := mkOhlc { o_open : Q; o_high : Q; o_low : Q; o_close : Q }.




(** The price statistics under the chart: last close, change and change
    in percent against the previous close (shown only for two rows or
    more; the percent is [None] where the float division gives inf or
    NaN), highest high, lowest low. *)
Record stats := mkStats {
  last_close : Q; change : option (Q * option Q); period_high : Q; period_low : Q
}.

Inductive stats_res := StatsIndexError | StatsOk (s : stats).

Definition price_stats (rows : list ohlc) : stats_res :=
  match rev rows with
  | [] => StatsIndexError              (* hist['Close'].iloc[-1] *)
  | last :: before =>
    let ch := match before with
              | [] => None
              | prev :: _ =>
                let c := (o_close last - o_close prev)%Q in
                Some (c, if Qeq_bool (o_close prev) 0 then None
                         else Some (c / o_close prev * 100)%Q)
              end in
    let hs := List.map o_high rows in
    let ls := List.map o_low rows in
    StatsOk (mkStats (o_close last) ch
               (fold_left Qmax hs (o_high last)) (fold_left Qmin ls (o_low last)))
  end.

(** ** One press of the analyse button *)

Inductive run_outcome :=
| NoCodeWarning                  (* st.warning: enter a code *)
| FetchFailed                    (* st.error, st.stop() *)
| ScoreRaised (e : exc)          (* the scoring raised *)
| Analysed (sc : nat) (sd : breakdown).

(** The main script with the button pressed: fetch, score, persist. *)
Definition analyze (code now_date now_month : string) (prov : nat -> response)
    (st : store) : list event * run_outcome * store :=
  if String.eqb code "" then ([], NoCodeWarning, st) else
  let '(evs, data) := fetch_stock_data code prov in
  match data with
  | None => (evs, FetchFailed, st)
  | Some b =>
    match calculate_comprehensive_score (Some b) with
    | Raise e => (evs, ScoreRaised e, st)
    | Ok (sc, sd) =>
      (evs, Analysed sc sd, save_history now_date now_month code (company_name b) sc sd st)
    end
  end.

(** One run of the page with the button pressed: the sidebar is drawn
    from the store as it is when the run starts, before the analysis
    below it saves anything. *)
Definition page_run (code now_date now_month : string) (prov : nat -> response)
    (st : store) : option (list entry) * (list event * run_outcome * store) :=
  (sidebar_history st, analyze code now_date now_month prov st).

(** The points of a criterion's result. *)
Definition pts (r : pyres detail) : nat :=
  match r with Ok d => score d | Raise _ => 0 end.

(** The sum of the points of the nine criteria. *)
Definition crit_total (inf : info_map) : nat :=
  fold_right plus 0 (List.map (fun kc => pts (kc.2 inf)) criteria).

(** The fields whose criterion rewards larger values. *)
Definition monotone_fields : list string :=
  ["revenueGrowth"; "totalAssets"; "operatingCashflow"; "totalCash";
   "returnOnEquity"; "dividendRate"].

(** A field read as a number, with [0] for a missing or non-numeric one. *)
Definition field_num (inf : info_map) (k : string) : Q :=
  match inf !! k with Some (VNum q) => q | _ => 0%Q end.

(** Concrete inputs used by the statements below. *)

(** A criterion returns an entry whose points are bounded by its weight. *)
Definition crit_ok (c : info_map -> pyres detail) (w : nat) (inf : info_map) :=
  exists d, c inf = Ok d /\ score d <= w.

Definition zero_fields_info : info_map :=
  {[ "debtToEquity" := VNum 0; "revenueGrowth" := VNum 0 ]}.

Definition payout_zero_info : info_map := {[ "payoutRatio" := VNum 0 ]}.

Definition payout_low_info : info_map := {[ "payoutRatio" := VNum (7 # 20) ]}.


(** Mappings that also carry the company's name, a string. *)
Definition payout_named_info : info_map :=
  {[ "longName" := VStr "Toyota Motor Corporation"; "payoutRatio" := VNum (7 # 20) ]}.

Definition zero_named_info : info_map :=
  {[ "longName" := VStr "Toyota Motor Corporation";
     "debtToEquity" := VNum 0; "revenueGrowth" := VNum 0 ]}.


(** Ranking records of one month: two codes with equal scores and a
    record for 7203 that a later analysis of 7203 replaces. *)
Definition rank_e1 : entry := mkEntry "7203" VNone 70 [] "2026-10-01 09:00:00".
Definition rank_e2 : entry := mkEntry "6758" VNone 60 [] "2026-10-02 09:00:00".
Definition rank_e3 : entry := mkEntry "7974" VNone 60 [] "2026-10-03 09:00:00".
Definition rank_e4 : entry := mkEntry "7203" VNone 50 [] "2026-10-04 09:00:00".

Definition rank_file3 : option (gmap string (list entry)) :=
  Some (update_monthly_ranking "2026-10" rank_e3
    (Some (update_monthly_ranking "2026-10" rank_e2
      (Some (update_monthly_ranking "2026-10" rank_e1 None))))).

Definition call0 : save_call :=
  mkCall "2026-10-01 09:00:00" "2026-10" "7203" VNone 70 [].

Definition two_months : gmap string (list entry) :=
  {[ "2026-09" := [entry_of_call call0] ]}.

(** A provider whose price history always raises with [msg]. *)
Definition always_raises (msg : string) : nat -> response :=
  fun _ => mkResp (HRaise msg) IRaise.

Definition empty_provider : nat -> response := fun _ => mkResp HEmpty IRaise.

(** A provider whose prices come through while its [info] request fails. *)
Definition info_down_provider : nat -> response := fun _ => mkResp HData IRaise.


(* ================================================================== *)
(** * Properties *)

Example scenario_scores_100 :
  fst <$> (match calculate_comprehensive_score
                   (Some (mkBundle VNone (Some scenario_info))) with
           | Ok r => Some r | Raise _ => None end) = Some 100%nat.
Proof. vm_compute. reflexivity. Qed.

Example ranking_orders_by_score :
  let e c s := mkEntry c VNone s [] "2026-10-01 00:00:00" in
  option_map (List.map stock_code)
    (update_monthly_ranking "2026-10" (e "C" 60)
       (Some (update_monthly_ranking "2026-10" (e "B" 90)
          (Some (update_monthly_ranking "2026-10" (e "A" 30) None)))) !! "2026-10")
  = Some ["B"; "C"; "A"].
Proof. vm_compute. reflexivity. Qed.

Example fetch_rate_limited_twice :
  let prov i := mkResp (if Nat.ltb i 2 then HRaise "429 Too Many Requests" else HData)
                       (IInfo ∅) in
  fetch_stock_data "7203" prov =
    ([Sleep 1; QueryHistory "7203.T"; ShowRateWait 2; Sleep 2;
      Sleep 1; QueryHistory "7203.T"; ShowRateWait 4; Sleep 4;
      Sleep 1; QueryHistory "7203.T"; Sleep 1; QueryInfo "7203.T"],
     Some (mkBundle (VStr ("銘柄" ++ "7203")) (Some ∅))).
Proof. vm_compute. reflexivity. Qed.

(** ** Scoring on well-typed mappings *)

Lemma wt_get inf k :
  well_typed inf -> get inf k = VNone \/ exists q, get inf k = VNum q.
Proof.
  intros H. unfold get. destruct (inf !! k) as [v|] eqn:E; [|auto].
  apply H in E. destruct v; simpl in E; eauto; discriminate.
Qed.

Lemma ft_get inf k :
  fields_typed inf -> In k score_fields -> get inf k = VNone \/ exists q, get inf k = VNum q.
Proof.
  intros H Hk. unfold fields_typed in H. rewrite forallb_forall in H.
  specialize (H k Hk). destruct (get inf k); simpl in H; eauto; discriminate.
Qed.

Lemma well_typed_fields inf : well_typed inf -> fields_typed inf.
Proof.
  intros H. unfold fields_typed. apply forallb_forall. intros k _.
  destruct (wt_get inf k H) as [-> | [q ->]]; reflexivity.
Qed.

Ltac field_cases H k :=
  destruct (wt_get _ k H) as [-> | [?q ->]].

Ltac ft_cases H k :=
  destruct (ft_get _ k H ltac:(cbn; tauto)) as [-> | [?q ->]].

Ltac unfold_py :=
  unfold py_and, py_gt, py_lt, py_le, fmt_pct, fmt_bil, py_mul100, py_div1e9,
    py_fmt_f, truthy, fail_detail in *.

Ltac close_crit :=
  unfold_py; repeat (cbn; case_match);
  (eexists; split; [reflexivity | cbn; lia]).

Lemma crit_revenue_ok inf : fields_typed inf -> crit_ok crit_revenue 15 inf.
Proof. intros H. unfold crit_ok, crit_revenue. ft_cases H "revenueGrowth"; close_crit. Qed.

Lemma crit_eps_ok inf : fields_typed inf -> crit_ok crit_eps 15 inf.
Proof.
  intros H. unfold crit_ok, crit_eps.
  ft_cases H "trailingEps"; ft_cases H "forwardEps"; close_crit.
Qed.

Lemma crit_positive_bil_ok key inf :
  fields_typed inf -> In key score_fields -> crit_ok (crit_positive_bil key) 10 inf.
Proof.
  intros H Hk. unfold crit_ok, crit_positive_bil.
  destruct (ft_get _ key H Hk) as [-> | [q ->]]; close_crit.
Qed.

Lemma crit_roe_ok inf : fields_typed inf -> crit_ok crit_roe 10 inf.
Proof. intros H. unfold crit_ok, crit_roe. ft_cases H "returnOnEquity"; close_crit. Qed.

Lemma crit_equity_ratio_ok inf : fields_typed inf -> crit_ok crit_equity_ratio 10 inf.
Proof. intros H. unfold crit_ok, crit_equity_ratio. ft_cases H "debtToEquity"; close_crit. Qed.

Lemma crit_dividend_ok inf : fields_typed inf -> crit_ok crit_dividend 10 inf.
Proof. intros H. unfold crit_ok, crit_dividend. ft_cases H "dividendRate"; close_crit. Qed.

Lemma crit_payout_ratio_ok inf : fields_typed inf -> crit_ok crit_payout_ratio 10 inf.
Proof. intros H. unfold crit_ok, crit_payout_ratio. ft_cases H "payoutRatio"; close_crit. Qed.

(** The degraded-input fallback. *)
Lemma calc_fallback data :
  data = None \/ (exists b, data = Some b /\ (info b = None \/ info b = Some ∅)) ->
  calculate_comprehensive_score data = Ok (50, [("note", BNote note_text)]).
Proof.
  intros [-> | [b [-> [Hi | Hi]]]]; cbn; rewrite ?Hi; [reflexivity | reflexivity |].
  destruct (decide (∅ = (∅ : info_map))) as [_|n]; [reflexivity | now contradiction n].
Qed.

(** On a non-empty mapping whose scored fields are numbers or [None] the
    nine criteria all return, and the result is their dict with the sum
    of their points. *)
Lemma calc_result_ft b inf :
  info b = Some inf -> inf ≠ ∅ -> fields_typed inf ->
  exists d1 d2 d3 d4 d5 d6 d7 d8 d9,
    crit_revenue inf = Ok d1 /\ crit_eps inf = Ok d2 /\
    crit_assets inf = Ok d3 /\ crit_operating_cf inf = Ok d4 /\
    crit_cash inf = Ok d5 /\ crit_roe inf = Ok d6 /\
    crit_equity_ratio inf = Ok d7 /\ crit_dividend inf = Ok d8 /\
    crit_payout_ratio inf = Ok d9 /\
    score d1 <= 15 /\ score d2 <= 15 /\ score d3 <= 10 /\ score d4 <= 10 /\
    score d5 <= 10 /\ score d6 <= 10 /\ score d7 <= 10 /\ score d8 <= 10 /\
    score d9 <= 10 /\
    calculate_comprehensive_score (Some b) =
      Ok (sum_scores (details9 d1 d2 d3 d4 d5 d6 d7 d8 d9),
          details9 d1 d2 d3 d4 d5 d6 d7 d8 d9).
Proof.
  intros Hi Hne Hwt.
  destruct (crit_revenue_ok _ Hwt) as [d1 [E1 B1]].
  destruct (crit_eps_ok _ Hwt) as [d2 [E2 B2]].
  destruct (crit_positive_bil_ok "totalAssets" _ Hwt ltac:(cbn; tauto)) as [d3 [E3 B3]].
  destruct (crit_positive_bil_ok "operatingCashflow" _ Hwt ltac:(cbn; tauto)) as [d4 [E4 B4]].
  destruct (crit_positive_bil_ok "totalCash" _ Hwt ltac:(cbn; tauto)) as [d5 [E5 B5]].
  destruct (crit_roe_ok _ Hwt) as [d6 [E6 B6]].
  destruct (crit_equity_ratio_ok _ Hwt) as [d7 [E7 B7]].
  destruct (crit_dividend_ok _ Hwt) as [d8 [E8 B8]].
  destruct (crit_payout_ratio_ok _ Hwt) as [d9 [E9 B9]].
  exists d1, d2, d3, d4, d5, d6, d7, d8, d9.
  unfold crit_assets, crit_operating_cf, crit_cash.
  repeat split; try assumption.
  unfold calculate_comprehensive_score. rewrite Hi.
  destruct (decide (inf = ∅)) as [|_]; [contradiction|].
  unfold crit_assets, crit_operating_cf, crit_cash.
  rewrite E1, E2, E3, E4, E5, E6, E7, E8, E9. reflexivity.
Qed.

Lemma calc_result b inf :
  info b = Some inf -> inf ≠ ∅ -> well_typed inf ->
  exists d1 d2 d3 d4 d5 d6 d7 d8 d9,
    crit_revenue inf = Ok d1 /\ crit_eps inf = Ok d2 /\
    crit_assets inf = Ok d3 /\ crit_operating_cf inf = Ok d4 /\
    crit_cash inf = Ok d5 /\ crit_roe inf = Ok d6 /\
    crit_equity_ratio inf = Ok d7 /\ crit_dividend inf = Ok d8 /\
    crit_payout_ratio inf = Ok d9 /\
    score d1 <= 15 /\ score d2 <= 15 /\ score d3 <= 10 /\ score d4 <= 10 /\
    score d5 <= 10 /\ score d6 <= 10 /\ score d7 <= 10 /\ score d8 <= 10 /\
    score d9 <= 10 /\
    calculate_comprehensive_score (Some b) =
      Ok (sum_scores (details9 d1 d2 d3 d4 d5 d6 d7 d8 d9),
          details9 d1 d2 d3 d4 d5 d6 d7 d8 d9).
Proof. intros Hi Hne Hwt. exact (calc_result_ft b inf Hi Hne (well_typed_fields _ Hwt)). Qed.

(** The entry stored under each criterion's key is what that criterion
    returned. *)
Lemma calc_entries_ft b inf :
  info b = Some inf -> inf ≠ ∅ -> fields_typed inf ->
  forall k c d, In (k, c) criteria -> c inf = Ok d ->
  entry_at k (calculate_comprehensive_score (Some b)) = Some d.
Proof.
  intros Hi Hne Hwt.
  destruct (calc_result_ft _ _ Hi Hne Hwt)
    as (d1 & d2 & d3 & d4 & d5 & d6 & d7 & d8 & d9 &
        E1 & E2 & E3 & E4 & E5 & E6 & E7 & E8 & E9 & _ & _ & _ & _ & _ & _ & _ & _ & _ & ->).
  intros k c d Hin Hc. cbn in Hin.
  repeat destruct Hin as [Hin | Hin]; try contradiction;
    injection Hin as <- <-; cbn; congruence.
Qed.




(** The entry stored under each criterion's key is what that criterion
    returned (mappings of numbers and [None]). *)
Lemma calc_entries b inf :
  info b = Some inf -> inf ≠ ∅ -> well_typed inf ->
  forall k c d, In (k, c) criteria -> c inf = Ok d ->
  entry_at k (calculate_comprehensive_score (Some b)) = Some d.
Proof. intros Hi Hne Hwt. exact (calc_entries_ft b inf Hi Hne (well_typed_fields _ Hwt)). Qed.

(** C1: on every non-empty mapping of numeric or null fields the score
    is returned, lies in [0, 100], is the sum of the nine entries of the
    breakdown, and each criterion's points are bounded by its weight
    (15, 15, 10, ..., 10). *)
Theorem score_total_bounded b inf :
  info b = Some inf -> inf ≠ ∅ -> well_typed inf ->
  exists total sd,
    calculate_comprehensive_score (Some b) = Ok (total, sd) /\
    0 <= total <= 100 /\
    total = sum_scores sd /\
    List.map fst sd = criterion_keys /\
    Forall2 (fun kv w => exists p, bval_score kv.2 = Some p /\ p <= w)
            sd criterion_weights.
Proof.
  intros Hi Hne Hwt.
  destruct (calc_result _ _ Hi Hne Hwt)
    as (d1 & d2 & d3 & d4 & d5 & d6 & d7 & d8 & d9 &
        _ & _ & _ & _ & _ & _ & _ & _ & _ &
        B1 & B2 & B3 & B4 & B5 & B6 & B7 & B8 & B9 & ->).
  do 2 eexists. split; [reflexivity|].
  cbn. repeat split; try lia.
  repeat constructor; eexists; (split; [reflexivity | assumption]).
Qed.

Lemma score_total_bounded_witness :
  exists total sd,
    calculate_comprehensive_score (Some (mkBundle VNone (Some scenario_info)))
      = Ok (total, sd) /\
    0 <= total <= 100 /\ total = sum_scores sd /\
    List.map fst sd = criterion_keys /\
    Forall2 (fun kv w => exists p, bval_score kv.2 = Some p /\ p <= w)
            sd criterion_weights.
Proof.
  apply (score_total_bounded (mkBundle VNone (Some scenario_info)) scenario_info).
  - reflexivity.
  - vm_compute. discriminate.
  - apply (bool_decide_unpack _). vm_compute. exact I.
Defined.

(** C2: with no bundle, no ['info'] or an empty ['info'], the score is
    the fixed 50 with the single ['note'] entry and no criterion entry. *)
Theorem score_fallback_50 data :
  data = None \/ (exists b, data = Some b /\ (info b = None \/ info b = Some ∅)) ->
  calculate_comprehensive_score data = Ok (50, [("note", BNote note_text)]).
Proof. apply calc_fallback. Qed.

Lemma score_fallback_50_witness :
  calculate_comprehensive_score (Some (mkBundle VNone (Some ∅)))
    = Ok (50, [("note", BNote note_text)]).
Proof.
  apply score_fallback_50. right. exists (mkBundle VNone (Some ∅)).
  split; [reflexivity | right; reflexivity].
Defined.

(** ** Zero, absent and malformed fields *)

Lemma get_num_nonempty inf k q : get inf k = VNum q -> inf ≠ ∅.
Proof. intros H ->. unfold get in H. vm_compute in H. discriminate. Qed.

Lemma Qeq_bool_zero q : q == 0 -> Qeq_bool q 0 = true.
Proof. apply Qeq_bool_iff. Qed.

Lemma Qeq_bool_nonzero q : ~ q == 0 -> Qeq_bool q 0 = false.
Proof. intros H. destruct (Qeq_bool q 0) eqn:E; [|reflexivity]. apply Qeq_bool_iff in E. contradiction. Qed.

Lemma Qltb_true x y : (x < y)%Q -> Qltb x y = true.
Proof.
  intros H. unfold Qltb. destruct (Qle_bool y x) eqn:E; [|reflexivity].
  apply Qle_bool_iff in E. exfalso. apply (Qlt_not_le _ _ H E).
Qed.

(** A numeric zero field makes every criterion that tests it by
    truthiness fail. *)
Lemma truthy_field_zero inf q :
  q == 0 ->
  Forall (fun fk => get inf fk.1 = VNum q ->
                    exists c, In (fk.2, c) criteria /\ c inf = Ok fail_detail)
         truthy_fields.
Proof.
  intros Hq. pose proof (Qeq_bool_zero _ Hq) as Hz.
  repeat constructor; intros Hg; eexists; (split; [cbn; tauto|]);
    unfold crit_revenue, crit_eps, crit_assets, crit_operating_cf, crit_cash,
      crit_positive_bil, crit_roe, crit_dividend, crit_payout_ratio;
    cbn [fst] in Hg; rewrite Hg; unfold_py; cbn; rewrite Hz; cbn; reflexivity.
Qed.

(** C9: a [debtToEquity] of 0, and any value below 100 (negative ones
    included), counts as present and earns the full 10 points; a numeric
    zero in any of the other eight fields that decide a criterion makes
    that criterion score 0 with ['N/A'].  Only the fields the scoring
    reads need be numbers or [None]. *)
Theorem zero_counts_only_for_debt_to_equity b inf :
  info b = Some inf -> fields_typed inf ->
  (forall q, get inf "debtToEquity" = VNum q -> (q < 100)%Q ->
     entry_at "equity_ratio" (calculate_comprehensive_score (Some b))
       = Some (mkDetail 10 Pass (DE1 q))) /\
  Forall (fun fk => forall q, get inf fk.1 = VNum q -> q == 0 ->
     entry_at fk.2 (calculate_comprehensive_score (Some b)) = Some fail_detail)
    truthy_fields.
Proof.
  intros Hi Hwt. split.
  - intros q Hg Hq.
    apply (calc_entries_ft b inf Hi (get_num_nonempty _ _ _ Hg) Hwt _ crit_equity_ratio);
      [cbn; tauto|].
    unfold crit_equity_ratio. rewrite Hg. unfold_py. cbn.
    rewrite (Qltb_true _ _ Hq). reflexivity.
  - apply Forall_forall. intros fk Hin q Hg Hq.
    pose proof (truthy_field_zero inf q Hq) as HF.
    rewrite Forall_forall in HF.
    destruct (HF fk Hin Hg) as [c [Hc Hok]].
    exact (calc_entries_ft b inf Hi (get_num_nonempty _ _ _ Hg) Hwt _ _ _ Hc Hok).
Qed.


Lemma zero_counts_only_for_debt_to_equity_witness :
  (forall q, get zero_named_info "debtToEquity" = VNum q -> (q < 100)%Q ->
     entry_at "equity_ratio"
       (calculate_comprehensive_score (Some (mkBundle VNone (Some zero_named_info))))
       = Some (mkDetail 10 Pass (DE1 q))) /\
  Forall (fun fk => forall q, get zero_named_info fk.1 = VNum q -> q == 0 ->
     entry_at fk.2
       (calculate_comprehensive_score (Some (mkBundle VNone (Some zero_named_info))))
       = Some fail_detail)
    truthy_fields.
Proof.
  apply (zero_counts_only_for_debt_to_equity (mkBundle VNone (Some zero_named_info))).
  - reflexivity.
  - vm_compute. reflexivity.
Defined.


(** C5, counterexample: [payoutRatio = 0] is [<= 0.40], yet [0] is falsy
    and the criterion scores 0 ([FAIL], ['N/A']), not the full 10. *)
Lemma payout_ratio_zero_counterexample :
  entry_at "payout_ratio"
    (calculate_comprehensive_score (Some (mkBundle VNone (Some payout_zero_info))))
    = Some (mkDetail 0 Fail NA) /\
  ~ (forall b inf q, info b = Some inf -> get inf "payoutRatio" = VNum q ->
       (q <= 2 # 5)%Q ->
       option_map score (entry_at "payout_ratio" (calculate_comprehensive_score (Some b)))
         = Some 10).
Proof.
  split; [vm_compute; reflexivity|].
  intros H. specialize (H (mkBundle VNone (Some payout_zero_info)) payout_zero_info 0%Q
                          eq_refl eq_refl).
  assert (Hle : (0 <= 2 # 5)%Q) by (apply Qle_bool_iff; reflexivity).
  specialize (H Hle). vm_compute in H. discriminate H.
Qed.

(** C5, as the code has it: when the ten fields the scoring reads are
    numbers or [None] (other keys such as [longName] may hold anything), a
    numeric [payoutRatio] that is non-zero and [<= 0.40] (negative ones
    included) earns the full 10 points; a zero [payoutRatio] is falsy,
    counts as absent and scores 0 with ['N/A']. *)
Theorem payout_ratio_pass b inf q :
  info b = Some inf -> fields_typed inf -> get inf "payoutRatio" = VNum q ->
  (~ q == 0 -> (q <= 2 # 5)%Q ->
     entry_at "payout_ratio" (calculate_comprehensive_score (Some b))
       = Some (mkDetail 10 Pass (Pct1 (q * 100)))) /\
  (q == 0 ->
     entry_at "payout_ratio" (calculate_comprehensive_score (Some b))
       = Some (mkDetail 0 Fail NA)).
Proof.
  intros Hi Hwt Hg. pose proof (get_num_nonempty _ _ _ Hg) as Hne.
  split.
  - intros Hnz Hle.
    apply (calc_entries_ft b inf Hi Hne Hwt _ crit_payout_ratio); [cbn; tauto|].
    unfold crit_payout_ratio. rewrite Hg. unfold_py. cbn.
    rewrite (Qeq_bool_nonzero _ Hnz). cbn.
    apply Qle_bool_iff in Hle. rewrite Hle. reflexivity.
  - intros Hz.
    apply (calc_entries_ft b inf Hi Hne Hwt _ crit_payout_ratio); [cbn; tauto|].
    unfold crit_payout_ratio. rewrite Hg. unfold_py. cbn.
    rewrite (Qeq_bool_zero _ Hz). reflexivity.
Qed.


Lemma payout_ratio_pass_witness :
  (~ (7 # 20) == 0 -> (7 # 20 <= 2 # 5)%Q ->
     entry_at "payout_ratio"
       (calculate_comprehensive_score (Some (mkBundle VNone (Some payout_named_info))))
       = Some (mkDetail 10 Pass (Pct1 ((7 # 20) * 100)))) /\
  ((7 # 20) == 0 ->
     entry_at "payout_ratio"
       (calculate_comprehensive_score (Some (mkBundle VNone (Some payout_named_info))))
       = Some (mkDetail 0 Fail NA)).
Proof.
  apply (payout_ratio_pass (mkBundle VNone (Some payout_named_info)) payout_named_info).
  - reflexivity.
  - vm_compute. reflexivity.
  - reflexivity.
Defined.





(** ** The history log *)

Lemma length_py_last {A} n (l : list A) : length (py_last n l) <= n.
Proof. unfold py_last. rewrite length_drop. lia. Qed.

(** Cutting to the last [n] and then appending and cutting again is the
    same as appending and cutting once. *)
Lemma py_last_app {A} n (x y : list A) :
  py_last n (py_last n x ++ y) = py_last n (x ++ y).
Proof.
  unfold py_last. rewrite length_app, length_drop.
  rewrite <- drop_app_le by lia. rewrite drop_drop, length_app. f_equal. lia.
Qed.

Lemma load_run_call st c :
  load_history (run_call st c) = py_last 100 (load_history st ++ [entry_of_call c]).
Proof. reflexivity. Qed.

Lemma load_run_calls st c cs :
  load_history (run_calls (run_call st c) cs)
  = py_last 100 (load_history st ++ List.map entry_of_call (c :: cs)).
Proof.
  revert st c. induction cs as [|c' cs IH]; intros st c.
  - reflexivity.
  - cbn [run_calls fold_left]. fold (run_calls (run_call (run_call st c) c') cs).
    rewrite IH, load_run_call, py_last_app.
    cbn [List.map]. rewrite <- app_assoc. reflexivity.
Qed.

(** C3: after any non-empty sequence of appends, from any starting log,
    the log holds at most 100 records and is the last 100 of the old log
    followed by the new records, in order; from no log at all, 105
    appends leave exactly the last 100 records. *)
Theorem history_bounded_fifo st cs :
  cs <> [] ->
  length (load_history (run_calls st cs)) <= 100 /\
  load_history (run_calls st cs)
    = py_last 100 (load_history st ++ List.map entry_of_call cs) /\
  (history_file st = None -> length cs = 105 ->
   load_history (run_calls st cs) = drop 5 (List.map entry_of_call cs)).
Proof.
  intros Hne. destruct cs as [|c cs]; [contradiction|].
  cbn [run_calls fold_left]. fold (run_calls (run_call st c) cs).
  rewrite load_run_calls. split; [apply length_py_last|]. split; [reflexivity|].
  intros Hf Hl. unfold load_history at 1. rewrite Hf. cbn [app].
  unfold py_last. rewrite length_map, Hl. reflexivity.
Qed.


Lemma history_bounded_fifo_witness :
  length (load_history (run_calls empty_store (repeat call0 105))) <= 100 /\
  load_history (run_calls empty_store (repeat call0 105))
    = py_last 100 (load_history empty_store ++ List.map entry_of_call (repeat call0 105)) /\
  (history_file empty_store = None -> length (repeat call0 105) = 105 ->
   load_history (run_calls empty_store (repeat call0 105))
     = drop 5 (List.map entry_of_call (repeat call0 105))).
Proof. apply history_bounded_fifo. cbn. discriminate. Defined.

(** ** The monthly ranking *)

Lemma insert_desc_perm x l : Permutation (insert_desc x l) (x :: l).
Proof.
  induction l as [|y t IH]; cbn; [reflexivity|].
  destruct (Nat.leb (e_score y) (e_score x)); [reflexivity|].
  rewrite IH. apply perm_swap.
Qed.

Lemma sort_desc_perm l : Permutation (sort_desc l) l.
Proof.
  induction l as [|x t IH]; cbn; [reflexivity|].
  rewrite insert_desc_perm, IH. reflexivity.
Qed.

Lemma insert_desc_sorted x l :
  Sorted score_desc l -> Sorted score_desc (insert_desc x l).
Proof.
  induction l as [|y t IH]; intros Hs; cbn; [repeat constructor|].
  destruct (Nat.leb (e_score y) (e_score x)) eqn:E.
  - apply Nat.leb_le in E. constructor; [exact Hs|]. constructor. exact E.
  - apply Nat.leb_gt in E. apply Sorted_inv in Hs as [Ht Hh].
    constructor; [apply IH, Ht|].
    destruct t as [|z t']; cbn; [constructor; unfold score_desc; lia|].
    inversion Hh as [|? ? Hyz]; subst.
    destruct (Nat.leb (e_score z) (e_score x)); constructor;
      unfold score_desc in *; lia.
Qed.

Lemma sort_desc_sorted l : Sorted score_desc (sort_desc l).
Proof.
  induction l as [|x t IH]; cbn; [constructor|]. apply insert_desc_sorted, IH.
Qed.

(** Inserting places a record in front of every record of its own
    score. *)
Lemma filter_score_insert_desc s x l :
  List.filter (fun r => Nat.eqb (e_score r) s) (insert_desc x l)
  = List.filter (fun r => Nat.eqb (e_score r) s) (x :: l).
Proof.
  induction l as [|y t IH]; cbn; [reflexivity|].
  destruct (Nat.leb (e_score y) (e_score x)) eqn:E; [reflexivity|].
  apply Nat.leb_gt in E. cbn. rewrite IH. cbn.
  destruct (Nat.eqb_spec (e_score x) s), (Nat.eqb_spec (e_score y) s);
    try reflexivity; lia.
Qed.

(** The sort is stable: the records of each score keep their order. *)
Lemma filter_score_sort_desc s l :
  List.filter (fun r => Nat.eqb (e_score r) s) (sort_desc l)
  = List.filter (fun r => Nat.eqb (e_score r) s) l.
Proof.
  induction l as [|x t IH]; cbn; [reflexivity|].
  rewrite filter_score_insert_desc. cbn. rewrite IH. reflexivity.
Qed.

Lemma filter_perm (p : entry -> bool) l l' :
  Permutation l l' -> Permutation (List.filter p l) (List.filter p l').
Proof.
  induction 1; cbn.
  - constructor.
  - destruct (p x); [constructor|]; assumption.
  - destruct (p x), (p y); try constructor; reflexivity.
  - etransitivity; eassumption.
Qed.

Lemma NoDup_map_filter (f : entry -> string) (p : entry -> bool) l :
  NoDup (List.map f l) -> NoDup (List.map f (List.filter p l)).
Proof.
  induction l as [|x t IH]; cbn; intros Hnd; [constructor|].
  inversion Hnd as [|? ? Hnin Hnd']; subst.
  destruct (p x); cbn; [|auto]. constructor; [|auto].
  intros Hin. apply Hnin. apply list_elem_of_In.
  apply list_elem_of_In, in_map_iff in Hin as [y [Hy Hiny]].
  apply filter_In in Hiny as [Hiny _]. rewrite <- Hy. apply in_map, Hiny.
Qed.

Lemma NoDup_perm (l l' : list string) : Permutation l l' -> NoDup l -> NoDup l'.
Proof. intros P H. rewrite <- P. exact H. Qed.

Lemma update_lookup_same m e rf :
  update_monthly_ranking m e rf !! m = Some (sort_desc (ranking_input m e rf)).
Proof.
  unfold update_monthly_ranking, ranking_input, bucket_of, rankings_of.
  set (R := match rf with Some r => r | None => ∅ end).
  destruct (R !! m) as [b|] eqn:E; cbv beta iota;
    rewrite !lookup_insert_eq; cbv beta iota; rewrite ?E, ?lookup_insert_eq;
    reflexivity.
Qed.

Lemma update_lookup_ne m e rf k :
  k <> m -> update_monthly_ranking m e rf !! k = rankings_of rf !! k.
Proof.
  intros Hne. unfold update_monthly_ranking, rankings_of.
  set (R := match rf with Some r => r | None => ∅ end).
  rewrite !lookup_insert_ne by congruence.
  destruct (R !! m); [reflexivity|]. rewrite lookup_insert_ne by congruence. reflexivity.
Qed.

(** The bucket after an update has unique codes when the old one had. *)
Lemma ranking_input_nodup m e rf :
  NoDup (List.map stock_code (bucket_of m rf)) ->
  NoDup (List.map stock_code (ranking_input m e rf)).
Proof.
  intros Hnd. unfold ranking_input.
  set (l := List.filter _ (bucket_of m rf)).
  apply (NoDup_perm (List.map stock_code (e :: l))).
  { apply Permutation_map, Permutation_cons_append. }
  cbn. constructor.
  - intros Hin. apply list_elem_of_In, in_map_iff in Hin as [y [Hy Hiny]].
    apply filter_In in Hiny as [_ Hp]. rewrite Hy, String.eqb_refl in Hp. discriminate.
  - apply NoDup_map_filter, Hnd.
Qed.

Lemma reachable_nodup rf :
  reachable rf -> forall k, NoDup (List.map stock_code (bucket_of k rf)).
Proof.
  induction 1 as [|m e rf Hr IH]; intros k.
  - unfold bucket_of, rankings_of. rewrite lookup_empty. constructor.
  - unfold bucket_of at 1. cbn [rankings_of].
    destruct (decide (k = m)) as [->|Hne].
    + rewrite update_lookup_same.
      apply (NoDup_perm (List.map stock_code (ranking_input m e rf)));
        [apply Permutation_map; symmetry; apply sort_desc_perm|].
      apply ranking_input_nodup, IH.
    + rewrite update_lookup_ne by exact Hne. apply IH.
Qed.

Lemma filter_same_code_removed (c : string) l :
  List.filter (fun r => String.eqb (stock_code r) c)
    (List.filter (fun r => negb (String.eqb (stock_code r) c)) l) = [].
Proof.
  induction l as [|x t IH]; cbn; [reflexivity|].
  destruct (String.eqb (stock_code x) c) eqn:E; cbn; [exact IH|].
  rewrite E. exact IH.
Qed.

(** C4: after any update of a ranking file the program can have written,
    the month's bucket has no two records with the same code, holds the
    new record as the only one with its code (an older one is dropped),
    is sorted by score descending, and is a stable sort of the old bucket
    without the code followed by the new record: records of equal score
    keep that order. *)
Theorem ranking_unique_sorted_stable m e rf :
  reachable rf ->
  exists b, update_monthly_ranking m e rf !! m = Some b /\
    NoDup (List.map stock_code b) /\
    List.filter (fun r => String.eqb (stock_code r) (stock_code e)) b = [e] /\
    Sorted score_desc b /\
    Permutation b (ranking_input m e rf) /\
    (forall s, List.filter (fun r => Nat.eqb (e_score r) s) b
             = List.filter (fun r => Nat.eqb (e_score r) s) (ranking_input m e rf)).
Proof.
  intros Hr. exists (sort_desc (ranking_input m e rf)).
  split; [apply update_lookup_same|].
  split.
  { apply (NoDup_perm (List.map stock_code (ranking_input m e rf)));
      [apply Permutation_map; symmetry; apply sort_desc_perm|].
    apply ranking_input_nodup, reachable_nodup, Hr. }
  split.
  { pose proof (filter_perm (fun r => String.eqb (stock_code r) (stock_code e)) _ _
                  (sort_desc_perm (ranking_input m e rf))) as P.
    unfold ranking_input in P. rewrite List.filter_app, filter_same_code_removed in P.
    cbn in P. rewrite String.eqb_refl in P.
    apply Permutation_length_1_inv. symmetry. exact P. }
  split; [apply sort_desc_sorted|].
  split; [apply sort_desc_perm|].
  intros s. apply filter_score_sort_desc.
Qed.

Lemma ranking_unique_sorted_stable_witness :
  exists b, update_monthly_ranking "2026-10" rank_e4 rank_file3 !! "2026-10" = Some b /\
    NoDup (List.map stock_code b) /\
    List.filter (fun r => String.eqb (stock_code r) (stock_code rank_e4)) b = [rank_e4] /\
    Sorted score_desc b /\
    Permutation b (ranking_input "2026-10" rank_e4 rank_file3) /\
    (forall s, List.filter (fun r => Nat.eqb (e_score r) s) b
             = List.filter (fun r => Nat.eqb (e_score r) s)
                 (ranking_input "2026-10" rank_e4 rank_file3)).
Proof.
  apply ranking_unique_sorted_stable.
  unfold rank_file3. repeat constructor.
Defined.

(** C10: an update changes only the bucket of the current month: every
    other month keeps its exact sequence, and no month is removed. *)
Theorem ranking_frame m e rf :
  (forall k, k <> m -> update_monthly_ranking m e rf !! k = rankings_of rf !! k) /\
  (forall k, is_Some (rankings_of rf !! k) ->
             is_Some (update_monthly_ranking m e rf !! k)).
Proof.
  split.
  - intros k Hk. apply update_lookup_ne, Hk.
  - intros k Hk. destruct (decide (k = m)) as [->|Hne].
    + rewrite update_lookup_same. eexists; reflexivity.
    + rewrite update_lookup_ne by exact Hne. exact Hk.
Qed.


Lemma ranking_frame_witness :
  (forall k, k <> "2026-10" ->
     update_monthly_ranking "2026-10" (entry_of_call call0) (Some two_months) !! k
     = rankings_of (Some two_months) !! k) /\
  (forall k, is_Some (rankings_of (Some two_months) !! k) ->
             is_Some (update_monthly_ranking "2026-10" (entry_of_call call0)
                        (Some two_months) !! k)).
Proof. apply ranking_frame. Defined.

(** ** The retry loop *)


(** C6, counterexample: a provider that always times out is queried three
    times, not twice, before the fetch fails. *)
Lemma transient_error_counterexample :
  is_rate_limit "Read timed out" = false /\
  attempts (fst (fetch_stock_data "7203" (always_raises "Read timed out"))) = 3 /\
  snd (fetch_stock_data "7203" (always_raises "Read timed out")) = None /\
  attempts (fst (fetch_stock_data "7203" (always_raises "Read timed out"))) <> 2.
Proof. vm_compute. repeat split. discriminate. Qed.

(** C6, as the code has it: an error without the rate-limit signature is
    retried at the flat [retry_delay] of 2 within the same loop of
    [max_retries] attempts; a provider that always raises such errors is
    queried exactly three times, with two equal waits of 2 between the
    queries (besides the courtesy sleep of 1 before each), and the fetch
    then fails. *)
Theorem transient_error_three_attempts code prov :
  (forall i, exists msg, r_hist (prov i) = HRaise msg /\ is_rate_limit msg = false) ->
  fetch_stock_data code prov =
    ([Sleep 1; QueryHistory (code ++ ".T"); Sleep 2;
      Sleep 1; QueryHistory (code ++ ".T"); Sleep 2;
      Sleep 1; QueryHistory (code ++ ".T")], None).
Proof.
  intros H.
  destruct (H 0) as [m0 [E0 R0]], (H 1) as [m1 [E1 R1]], (H 2) as [m2 [E2 R2]].
  unfold fetch_stock_data, max_retries.
  cbn [fetch_from]. rewrite E0, R0. cbn [Nat.ltb Nat.leb max_retries Nat.sub].
  cbn [fetch_from]. rewrite E1, R1. cbn [Nat.ltb Nat.leb max_retries Nat.sub].
  cbn [fetch_from]. rewrite E2, R2. cbn [Nat.ltb Nat.leb max_retries Nat.sub].
  reflexivity.
Qed.

Lemma transient_error_three_attempts_witness :
  fetch_stock_data "7203" (always_raises "Read timed out") =
    ([Sleep 1; QueryHistory ("7203" ++ ".T"); Sleep 2;
      Sleep 1; QueryHistory ("7203" ++ ".T"); Sleep 2;
      Sleep 1; QueryHistory ("7203" ++ ".T")], None).
Proof.
  apply transient_error_three_attempts. intros i.
  exists "Read timed out". split; [reflexivity | vm_compute; reflexivity].
Defined.

(** C8: when the price history of the current attempt is empty, that
    attempt ends the fetch with the not-found failure right after its
    single query: no wait, no further query, no retry. From the first
    attempt, the whole fetch is that one attempt. *)
Theorem empty_history_not_found code prov a :
  r_hist (prov a) = HEmpty ->
  (forall rem, fetch_from code prov a (S rem)
               = ([Sleep 1; QueryHistory (code ++ ".T"); ShowNotFound], None)) /\
  (a = 0 -> fetch_stock_data code prov
            = ([Sleep 1; QueryHistory (code ++ ".T"); ShowNotFound], None)).
Proof.
  intros He. split.
  - intros rem. cbn [fetch_from]. rewrite He. reflexivity.
  - intros ->. unfold fetch_stock_data, max_retries. cbn [fetch_from].
    rewrite He. reflexivity.
Qed.


Lemma empty_history_not_found_witness :
  (forall rem, fetch_from "7203" empty_provider 0 (S rem)
               = ([Sleep 1; QueryHistory ("7203" ++ ".T"); ShowNotFound], None)) /\
  (0 = 0 -> fetch_stock_data "7203" empty_provider
            = ([Sleep 1; QueryHistory ("7203" ++ ".T"); ShowNotFound], None)).
Proof. apply empty_history_not_found. reflexivity. Defined.

(* ================================================================== *)
(** * Further properties of the code *)

(** ** Tiers, cards and the pie chart *)

(** A criterion entry is in one of the three tiers of its weight. *)
Definition tier_ok (w : nat) (d : detail) : Prop :=
  (score d = w /\ status d = Pass) \/
  (0 < score d < w /\ status d = Partial) \/
  (score d = 0 /\ status d = Fail).

Definition crit_tier (c : info_map -> pyres detail) (w : nat) (inf : info_map) :=
  exists d, c inf = Ok d /\ tier_ok w d.

Ltac close_tier :=
  unfold_py; repeat (cbn; case_match);
  (eexists; split; [reflexivity | unfold tier_ok; cbn;
     first [left; split; reflexivity
           | right; left; split; [lia | reflexivity]
           | right; right; split; reflexivity]]).

Lemma crit_revenue_tier inf : well_typed inf -> crit_tier crit_revenue 15 inf.
Proof. intros H. unfold crit_tier, crit_revenue. field_cases H "revenueGrowth"; close_tier. Qed.

Lemma crit_eps_tier inf : well_typed inf -> crit_tier crit_eps 15 inf.
Proof.
  intros H. unfold crit_tier, crit_eps.
  field_cases H "trailingEps"; field_cases H "forwardEps"; close_tier.
Qed.

Lemma crit_positive_bil_tier key inf :
  well_typed inf -> crit_tier (crit_positive_bil key) 10 inf.
Proof. intros H. unfold crit_tier, crit_positive_bil. field_cases H key; close_tier. Qed.

Lemma crit_roe_tier inf : well_typed inf -> crit_tier crit_roe 10 inf.
Proof. intros H. unfold crit_tier, crit_roe. field_cases H "returnOnEquity"; close_tier. Qed.

Lemma crit_equity_ratio_tier inf : well_typed inf -> crit_tier crit_equity_ratio 10 inf.
Proof. intros H. unfold crit_tier, crit_equity_ratio. field_cases H "debtToEquity"; close_tier. Qed.

Lemma crit_dividend_tier inf : well_typed inf -> crit_tier crit_dividend 10 inf.
Proof. intros H. unfold crit_tier, crit_dividend. field_cases H "dividendRate"; close_tier. Qed.

Lemma crit_payout_ratio_tier inf : well_typed inf -> crit_tier crit_payout_ratio 10 inf.
Proof. intros H. unfold crit_tier, crit_payout_ratio. field_cases H "payoutRatio"; close_tier. Qed.

(** The nine entries of a well-typed result, each in a tier of its weight. *)
Lemma calc_tiers b inf :
  info b = Some inf -> inf ≠ ∅ -> well_typed inf ->
  exists d1 d2 d3 d4 d5 d6 d7 d8 d9,
    tier_ok 15 d1 /\ tier_ok 15 d2 /\ tier_ok 10 d3 /\ tier_ok 10 d4 /\
    tier_ok 10 d5 /\ tier_ok 10 d6 /\ tier_ok 10 d7 /\ tier_ok 10 d8 /\
    tier_ok 10 d9 /\
    calculate_comprehensive_score (Some b) =
      Ok (sum_scores (details9 d1 d2 d3 d4 d5 d6 d7 d8 d9),
          details9 d1 d2 d3 d4 d5 d6 d7 d8 d9).
Proof.
  intros Hi Hne Hwt.
  destruct (calc_result _ _ Hi Hne Hwt)
    as (d1 & d2 & d3 & d4 & d5 & d6 & d7 & d8 & d9 &
        E1 & E2 & E3 & E4 & E5 & E6 & E7 & E8 & E9 & _ & _ & _ & _ & _ & _ & _ & _ & _ & ->).
  destruct (crit_revenue_tier _ Hwt) as [x1 [F1 T1]].
  destruct (crit_eps_tier _ Hwt) as [x2 [F2 T2]].
  destruct (crit_positive_bil_tier "totalAssets" _ Hwt) as [x3 [F3 T3]].
  destruct (crit_positive_bil_tier "operatingCashflow" _ Hwt) as [x4 [F4 T4]].
  destruct (crit_positive_bil_tier "totalCash" _ Hwt) as [x5 [F5 T5]].
  destruct (crit_roe_tier _ Hwt) as [x6 [F6 T6]].
  destruct (crit_equity_ratio_tier _ Hwt) as [x7 [F7 T7]].
  destruct (crit_dividend_tier _ Hwt) as [x8 [F8 T8]].
  destruct (crit_payout_ratio_tier _ Hwt) as [x9 [F9 T9]].
  unfold crit_assets, crit_operating_cf, crit_cash in *.
  assert (d1 = x1) as <- by congruence. assert (d2 = x2) as <- by congruence.
  assert (d3 = x3) as <- by congruence. assert (d4 = x4) as <- by congruence.
  assert (d5 = x5) as <- by congruence. assert (d6 = x6) as <- by congruence.
  assert (d7 = x7) as <- by congruence. assert (d8 = x8) as <- by congruence.
  assert (d9 = x9) as <- by congruence.
  exists d1, d2, d3, d4, d5, d6, d7, d8, d9. repeat split; assumption.
Qed.

Lemma card_color_of_tier w d :
  0 < w -> tier_ok w d ->
  (if Nat.eqb (score d) w then "#d4edda"
   else if Nat.ltb 0 (score d) then "#fff3cd" else "#f8d7da") = tier_color (status d).
Proof.
  intros Hw [[Hs Ht] | [[Hs Ht] | [Hs Ht]]]; rewrite Ht; cbn.
  - rewrite Hs, Nat.eqb_refl. reflexivity.
  - destruct (Nat.eqb_spec (score d) w); [lia|].
    destruct (score d); [lia | reflexivity].
  - rewrite Hs. destruct (Nat.eqb_spec 0 w); [lia|]. reflexivity.
Qed.

(** X1: on a non-empty well-typed mapping the detailed evaluation shows
    the nine cards, each coloured by its tier (green exactly at the full
    weight of [criteria_info], yellow for partial credit, red for a
    fail), and their achieved points add up to the total score. *)
Theorem cards_match_tiers b inf :
  info b = Some inf -> inf ≠ ∅ -> well_typed inf ->
  exists t sd cs,
    calculate_comprehensive_score (Some b) = Ok (t, sd) /\
    cards sd = Ok cs /\
    List.map card_name cs = List.map (fun ci => ci.1.1.2) criteria_info /\
    Forall (fun c => card_color c = tier_color (card_status c)) cs /\
    fold_right plus 0 (List.map card_achieved cs) = t.
Proof.
  intros Hi Hne Hwt.
  destruct (calc_tiers _ _ Hi Hne Hwt)
    as (d1 & d2 & d3 & d4 & d5 & d6 & d7 & d8 & d9 &
        T1 & T2 & T3 & T4 & T5 & T6 & T7 & T8 & T9 & ->).
  do 3 eexists. split; [reflexivity|]. split; [reflexivity|].
  cbn. split; [reflexivity|]. split; [|lia].
  repeat constructor; cbn; apply card_color_of_tier; (lia || assumption).
Qed.

Lemma cards_match_tiers_witness :
  exists t sd cs,
    calculate_comprehensive_score (Some (mkBundle VNone (Some scenario_info))) = Ok (t, sd) /\
    cards sd = Ok cs /\
    List.map card_name cs = List.map (fun ci => ci.1.1.2) criteria_info /\
    Forall (fun c => card_color c = tier_color (card_status c)) cs /\
    fold_right plus 0 (List.map card_achieved cs) = t.
Proof.
  apply (cards_match_tiers (mkBundle VNone (Some scenario_info)) scenario_info).
  - reflexivity.
  - vm_compute. discriminate.
  - apply (bool_decide_unpack _). vm_compute. exact I.
Defined.

(** X2: on a non-empty well-typed mapping the pie chart has one slice per
    criterion, labelled with the criterion's name in order, and the
    slice values add up to the total score. *)
Theorem pie_matches_total b inf :
  info b = Some inf -> inf ≠ ∅ -> well_typed inf ->
  exists t sd sl,
    calculate_comprehensive_score (Some b) = Ok (t, sd) /\
    pie_slices sd = Ok sl /\
    List.map (fun x => x.1.1) sl = List.map snd criteria_names /\
    List.map snd sl = List.map snd color_map /\
    fold_right plus 0 (List.map (fun x => x.1.2) sl) = t.
Proof.
  intros Hi Hne Hwt.
  destruct (calc_result _ _ Hi Hne Hwt)
    as (d1 & d2 & d3 & d4 & d5 & d6 & d7 & d8 & d9 &
        _ & _ & _ & _ & _ & _ & _ & _ & _ & _ & _ & _ & _ & _ & _ & _ & _ & _ & ->).
  do 3 eexists. split; [reflexivity|]. split; [reflexivity|].
  cbn. repeat split; lia.
Qed.

Lemma pie_matches_total_witness :
  exists t sd sl,
    calculate_comprehensive_score (Some (mkBundle VNone (Some scenario_info))) = Ok (t, sd) /\
    pie_slices sd = Ok sl /\
    List.map (fun x => x.1.1) sl = List.map snd criteria_names /\
    List.map snd sl = List.map snd color_map /\
    fold_right plus 0 (List.map (fun x => x.1.2) sl) = t.
Proof.
  apply (pie_matches_total (mkBundle VNone (Some scenario_info)) scenario_info).
  - reflexivity.
  - vm_compute. discriminate.
  - apply (bool_decide_unpack _). vm_compute. exact I.
Defined.

Lemma fallback_breakdown_display :
  pie_slices [("note", BNote note_text)] = Ok [] /\
  cards [("note", BNote note_text)] =
    Ok (List.map (fun ci => mkCard ci.1.1.2 Fail 0 ci.2 NA "#f8d7da") criteria_info).
Proof. split; reflexivity. Qed.

(** X3: when the prices are fetched but the [info] request failed (the
    code then stores the empty mapping), the analysis completes with score
    50: the gauge is amber with the "room for improvement" comment, the pie
    chart is empty, the nine cards are red at 0 points with "N/A", and
    the metric row shows a market value of 0 in the 億円 form and "N/A" for
    PER, PBR and dividend yield. *)
Theorem fallback_display code d m prov st b :
  code <> "" -> snd (fetch_stock_data code prov) = Some b -> info b = Some ∅ ->
  exists sd cs,
    snd (fst (analyze code d m prov st)) = Analysed 50 sd /\
    pie_slices sd = Ok [] /\
    cards sd = Ok cs /\ length cs = 9 /\
    Forall (fun c => card_achieved c = 0 /\ card_status c = Fail /\
                     card_value c = NA /\ card_color c = "#f8d7da") cs /\
    metrics ∅ = Ok [Oku (0 / 1000000000); MNA; MNA; MNA] /\
    gauge_color 50 = "#ffaa00" /\ verdict_of 50 = Improvable.
Proof.
  intros Hc Hf Hi. destruct fallback_breakdown_display as [Hp Hcs].
  do 2 eexists. split.
  { unfold analyze. apply String.eqb_neq in Hc. rewrite Hc.
    destruct (fetch_stock_data code prov) as [evs data] eqn:E. cbn in Hf. subst data.
    rewrite (calc_fallback (Some b)) by (right; eauto). reflexivity. }
  split; [exact Hp|]. split; [exact Hcs|].
  split; [reflexivity|]. split; [repeat constructor|].
  split; [vm_compute; reflexivity|]. split; reflexivity.
Qed.

Lemma fallback_display_witness :
  exists sd cs,
    snd (fst (analyze "7203" "2026-10-19 09:00:00" "2026-10" info_down_provider empty_store))
      = Analysed 50 sd /\
    pie_slices sd = Ok [] /\
    cards sd = Ok cs /\ length cs = 9 /\
    Forall (fun c => card_achieved c = 0 /\ card_status c = Fail /\
                     card_value c = NA /\ card_color c = "#f8d7da") cs /\
    metrics ∅ = Ok [Oku (0 / 1000000000); MNA; MNA; MNA] /\
    gauge_color 50 = "#ffaa00" /\ verdict_of 50 = Improvable.
Proof.
  apply (fallback_display "7203" "2026-10-19 09:00:00" "2026-10" info_down_provider empty_store
           (mkBundle (VStr ("銘柄" ++ "7203")) (Some ∅))).
  - discriminate.
  - reflexivity.
  - reflexivity.
Defined.

(** X4: the gauge colour and the evaluation comment use the same bands:
    red exactly for the "careful" comment (below 40), amber exactly for
    "room for improvement" (40 to 59), green exactly for "good" or
    "excellent" (60 and above). *)
Theorem gauge_matches_verdict s :
  (gauge_color s = "#ff4444" <-> verdict_of s = Careful) /\
  (gauge_color s = "#ffaa00" <-> verdict_of s = Improvable) /\
  (gauge_color s = "#00cc66" <-> verdict_of s = Excellent \/ verdict_of s = Sound).
Proof.
  unfold gauge_color, verdict_of.
  destruct (Nat.ltb_spec s 40), (Nat.ltb_spec s 60), (Nat.leb_spec 80 s),
    (Nat.leb_spec 60 s), (Nat.leb_spec 40 s); try lia;
    repeat split; intros; try discriminate; try reflexivity; auto;
    destruct_or?; discriminate.
Qed.

(** ** Monotonicity of the total *)

Lemma get_insert_eq (inf : info_map) (k : string) (v : pyval) : get (<[k:=v]> inf) k = v.
Proof. unfold get. rewrite (lookup_insert_eq (inf : gmap string pyval)). reflexivity. Qed.

Lemma get_insert_ne (inf : info_map) (k k' : string) (v : pyval) : k <> k' -> get (<[k:=v]> inf) k' = get inf k'.
Proof. intros H. unfold get. rewrite (lookup_insert_ne (inf : gmap string pyval)) by exact H. reflexivity. Qed.

Lemma well_typed_insert (inf : info_map) (k : string) (q : Q) : well_typed inf -> well_typed (<[k:=VNum q]> inf).
Proof. intros H. apply map_Forall_insert_2; [reflexivity | exact H]. Qed.

Lemma insert_nonempty (inf : info_map) k v : <[k:=v]> inf ≠ ∅.
Proof. apply insert_non_empty. Qed.

Lemma calc_total b inf :
  info b = Some inf -> inf ≠ ∅ -> well_typed inf ->
  exists sd, calculate_comprehensive_score (Some b) = Ok (crit_total inf, sd).
Proof.
  intros Hi Hne Hwt.
  destruct (calc_result _ _ Hi Hne Hwt)
    as (d1 & d2 & d3 & d4 & d5 & d6 & d7 & d8 & d9 &
        E1 & E2 & E3 & E4 & E5 & E6 & E7 & E8 & E9 & _ & _ & _ & _ & _ & _ & _ & _ & _ & ->).
  eexists. f_equal. f_equal. unfold crit_total. cbn.
  rewrite E1, E2, E3, E4, E5, E6, E7, E8, E9. cbn. lia.
Qed.

Lemma Qle_bool_false x y : Qle_bool x y = false -> (y < x)%Q.
Proof.
  intros H. apply Qnot_le_lt. intros Hle. apply Qle_bool_iff in Hle. congruence.
Qed.

Ltac q_cases :=
  repeat match goal with
  | |- context [Qeq_bool ?a ?b] =>
      let E := fresh "E" in destruct (Qeq_bool a b) eqn:E
  | |- context [Qle_bool ?a ?b] =>
      let E := fresh "E" in destruct (Qle_bool a b) eqn:E
  end;
  repeat match goal with
  | H : Qeq_bool _ _ = true |- _ => apply Qeq_bool_iff in H
  | H : Qeq_bool _ _ = false |- _ => clear H
  | H : Qle_bool _ _ = true |- _ => apply Qle_bool_iff in H
  | H : Qle_bool _ _ = false |- _ => apply Qle_bool_false in H
  end.

Ltac crit_compare :=
  unfold crit_revenue, crit_eps, crit_assets, crit_operating_cf, crit_cash,
    crit_positive_bil, crit_roe, crit_equity_ratio, crit_dividend,
    crit_payout_ratio;
  rewrite ?get_insert_eq;
  repeat (rewrite get_insert_ne by discriminate);
  first [ lia
        | unfold_py; cbn; unfold Qltb; q_cases; cbn; first [lia | exfalso; lra]].

(** Raising one of [monotone_fields] never lowers a criterion's points. *)
Lemma crit_monotone inf k q q' c :
  In k monotone_fields -> In c (List.map snd criteria) -> (q <= q')%Q ->
  pts (c (<[k:=VNum q]> inf)) <= pts (c (<[k:=VNum q']> inf)).
Proof.
  intros Hk Hc Hq. cbn in Hk, Hc.
  repeat destruct Hk as [<- | Hk]; try contradiction;
    repeat destruct Hc as [<- | Hc]; try contradiction; crit_compare.
Qed.

Lemma sum_le_pointwise (f g : (string * (info_map -> pyres detail)) -> nat) l :
  (forall x, In x l -> f x <= g x) ->
  fold_right plus 0 (List.map f l) <= fold_right plus 0 (List.map g l).
Proof.
  induction l as [|x t IH]; cbn; intros H; [lia|].
  specialize (IH (fun y Hy => H y (or_intror Hy))). specialize (H x (or_introl eq_refl)). lia.
Qed.

(** X5: on well-typed mappings, raising the value of [revenueGrowth],
    [totalAssets], [operatingCashflow], [totalCash], [returnOnEquity] or
    [dividendRate] (all else fixed) never lowers the total score. *)
Theorem total_monotone_in_field name inf k q q' :
  well_typed inf -> In k monotone_fields -> (q <= q')%Q ->
  exists t t' sd sd',
    calculate_comprehensive_score (Some (mkBundle name (Some (<[k:=VNum q]> inf)))) = Ok (t, sd) /\
    calculate_comprehensive_score (Some (mkBundle name (Some (<[k:=VNum q']> inf)))) = Ok (t', sd') /\
    t <= t'.
Proof.
  intros Hwt Hk Hq.
  destruct (calc_total (mkBundle name (Some (<[k:=VNum q]> inf))) _ eq_refl
              (insert_nonempty _ _ _) (well_typed_insert _ _ _ Hwt)) as [sd E].
  destruct (calc_total (mkBundle name (Some (<[k:=VNum q']> inf))) _ eq_refl
              (insert_nonempty _ _ _) (well_typed_insert _ _ _ Hwt)) as [sd' E'].
  exists (crit_total (<[k:=VNum q]> inf)), (crit_total (<[k:=VNum q']> inf)), sd, sd'.
  split; [exact E|]. split; [exact E'|].
  unfold crit_total. apply sum_le_pointwise. intros [key c] Hin.
  apply crit_monotone; [exact Hk | | exact Hq].
  apply in_map_iff. exists (key, c). split; [reflexivity | exact Hin].
Qed.

Lemma total_monotone_in_field_witness :
  exists t t' sd sd',
    calculate_comprehensive_score
      (Some (mkBundle VNone (Some (<["revenueGrowth":=VNum (3 # 100)]> scenario_info))))
      = Ok (t, sd) /\
    calculate_comprehensive_score
      (Some (mkBundle VNone (Some (<["revenueGrowth":=VNum (6 # 100)]> scenario_info))))
      = Ok (t', sd') /\
    t <= t'.
Proof.
  apply total_monotone_in_field.
  - apply (bool_decide_unpack _). vm_compute. exact I.
  - cbn. tauto.
  - apply Qle_bool_iff. reflexivity.
Defined.

(** Raising [debtToEquity] never raises a criterion's points. *)
Lemma crit_antitone_debt inf q q' c :
  In c (List.map snd criteria) -> (q <= q')%Q ->
  pts (c (<["debtToEquity":=VNum q']> inf)) <= pts (c (<["debtToEquity":=VNum q]> inf)).
Proof.
  intros Hc Hq. cbn in Hc.
  repeat destruct Hc as [<- | Hc]; try contradiction; crit_compare.
Qed.

(** X6: on well-typed mappings, raising [debtToEquity] (all else fixed) never
    raises the total score. *)
Theorem total_antitone_in_debt_to_equity name inf q q' :
  well_typed inf -> (q <= q')%Q ->
  exists t t' sd sd',
    calculate_comprehensive_score (Some (mkBundle name (Some (<["debtToEquity":=VNum q]> inf)))) = Ok (t, sd) /\
    calculate_comprehensive_score (Some (mkBundle name (Some (<["debtToEquity":=VNum q']> inf)))) = Ok (t', sd') /\
    t' <= t.
Proof.
  intros Hwt Hq.
  destruct (calc_total (mkBundle name (Some (<["debtToEquity":=VNum q]> inf))) _ eq_refl
              (insert_nonempty _ _ _) (well_typed_insert _ _ _ Hwt)) as [sd E].
  destruct (calc_total (mkBundle name (Some (<["debtToEquity":=VNum q']> inf))) _ eq_refl
              (insert_nonempty _ _ _) (well_typed_insert _ _ _ Hwt)) as [sd' E'].
  exists (crit_total (<["debtToEquity":=VNum q]> inf)),
    (crit_total (<["debtToEquity":=VNum q']> inf)), sd, sd'.
  split; [exact E|]. split; [exact E'|].
  unfold crit_total. apply sum_le_pointwise. intros [key c] Hin.
  apply crit_antitone_debt; [| exact Hq].
  apply in_map_iff. exists (key, c). split; [reflexivity | exact Hin].
Qed.

Lemma total_antitone_in_debt_to_equity_witness :
  exists t t' sd sd',
    calculate_comprehensive_score
      (Some (mkBundle VNone (Some (<["debtToEquity":=VNum 50]> scenario_info)))) = Ok (t, sd) /\
    calculate_comprehensive_score
      (Some (mkBundle VNone (Some (<["debtToEquity":=VNum 150]> scenario_info)))) = Ok (t', sd') /\
    t' <= t.
Proof.
  apply total_antitone_in_debt_to_equity.
  - apply (bool_decide_unpack _). vm_compute. exact I.
  - apply Qle_bool_iff. reflexivity.
Defined.

(** ** The views of the history and of the ranking *)

Lemma py_last_py_last {A} n m (l : list A) :
  n <= m -> py_last n (py_last m l) = py_last n l.
Proof.
  intros Hnm. unfold py_last. rewrite length_drop, drop_drop. f_equal. lia.
Qed.

Lemma py_last_snoc_last {A} n (l : list A) x :
  0 < n -> last (py_last n (l ++ [x])) = Some x.
Proof.
  intros Hn. unfold py_last. rewrite length_app. cbn [length].
  rewrite drop_app_le by lia. apply last_snoc.
Qed.

(** After a save, the sidebar drawn from the saved store lists the five
    most recent analyses of the log extended by the new one (the cut of
    the stored log to 100 does not change them), newest first. *)
Lemma sidebar_of_save d m code name sc sd st :
  let e := mkEntry code name sc sd d in
  exists l, sidebar_history (save_history d m code name sc sd st) = Some l /\
    l = rev (py_last 5 (load_history st ++ [e])) /\
    head l = Some e /\ length l <= 5.
Proof.
  cbn zeta. set (e := mkEntry code name sc sd d).
  assert (Hl : load_history (save_history d m code name sc sd st)
               = py_last 100 (load_history st ++ [e])) by reflexivity.
  unfold sidebar_history. rewrite Hl.
  assert (Hne : py_last 100 (load_history st ++ [e]) <> []).
  { intros H. pose proof (py_last_snoc_last 100 (load_history st) e ltac:(lia)) as L.
    rewrite H in L. discriminate. }
  destruct (py_last 100 (load_history st ++ [e])) as [|x t] eqn:E; [contradiction|].
  rewrite <- E, py_last_py_last by lia.
  eexists. split; [reflexivity|]. split; [reflexivity|]. split.
  - pose proof (py_last_snoc_last 5 (load_history st) e ltac:(lia)) as L.
    destruct (py_last 5 (load_history st ++ [e])) as [|y u] eqn:E5 using rev_ind;
      [discriminate|].
    rewrite last_snoc in L. injection L as ->. rewrite rev_app_distr. reflexivity.
  - rewrite length_rev. apply length_py_last.
Qed.

(** X7: in the run that analyses a code the sidebar is the one drawn from
    the store before the analysis, so the new analysis is not in it; when
    the analysis completes, the sidebar of the next run lists the five
    most recent analyses of the log extended by the new one, newest first:
    the new analysis heads the list, which has at most five entries. *)
Theorem sidebar_next_run code d m prov st :
  fst (page_run code d m prov st) = sidebar_history st /\
  forall sc sd, snd (fst (snd (page_run code d m prov st))) = Analysed sc sd ->
    exists b l,
      snd (fetch_stock_data code prov) = Some b /\
      sidebar_history (snd (snd (page_run code d m prov st))) = Some l /\
      l = rev (py_last 5 (load_history st ++ [mkEntry code (company_name b) sc sd d])) /\
      head l = Some (mkEntry code (company_name b) sc sd d) /\ length l <= 5.
Proof.
  split; [reflexivity|].
  intros sc sd. unfold page_run, analyze. cbn [fst snd].
  destruct (String.eqb code ""); [discriminate|].
  destruct (fetch_stock_data code prov) as [evs [b|]]; cbn [fst snd]; [|discriminate].
  destruct (calculate_comprehensive_score (Some b)) as [[sc' sd']|e]; cbn [fst snd];
    [|discriminate].
  intros [= <- <-].
  destruct (sidebar_of_save d m code (company_name b) sc' sd' st) as (l & H1 & H2 & H3 & H4).
  exists b, l. auto.
Qed.

Lemma sidebar_next_run_witness :
  fst (page_run "7203" "2026-10-19 09:00:00" "2026-10" info_down_provider empty_store)
    = sidebar_history empty_store /\
  forall sc sd,
    snd (fst (snd (page_run "7203" "2026-10-19 09:00:00" "2026-10" info_down_provider empty_store)))
      = Analysed sc sd ->
    exists b l,
      snd (fetch_stock_data "7203" info_down_provider) = Some b /\
      sidebar_history
        (snd (snd (page_run "7203" "2026-10-19 09:00:00" "2026-10" info_down_provider empty_store)))
        = Some l /\
      l = rev (py_last 5 (load_history empty_store
                            ++ [mkEntry "7203" (company_name b) sc sd "2026-10-19 09:00:00"])) /\
      head l = Some (mkEntry "7203" (company_name b) sc sd "2026-10-19 09:00:00") /\
      length l <= 5.
Proof. apply sidebar_next_run. Defined.

Lemma bucket_of_load m rf : bucket_of m rf = load_monthly_ranking m rf.
Proof. unfold bucket_of, rankings_of, load_monthly_ranking. destruct rf; [reflexivity|]. rewrite lookup_empty. reflexivity. Qed.

(** X8: right after a save, the ranking tab of the current month shows
    the month's earlier records of other codes, in their stored order,
    followed by the new analysis, rearranged by a sort from high to low
    score: each record exactly once, so an older record of the same code
    is gone. *)
Theorem ranking_view_after_save d m code name sc sd st :
  let e := mkEntry code name sc sd d in
  let v := load_monthly_ranking m (ranking_file (save_history d m code name sc sd st)) in
  Permutation v
    (List.filter (fun r => negb (String.eqb (stock_code r) code))
       (load_monthly_ranking m (ranking_file st)) ++ [e]) /\
  Sorted score_desc v.
Proof.
  cbn zeta. unfold save_history at 1 2. cbn [ranking_file load_monthly_ranking].
  rewrite update_lookup_same. split; [|apply sort_desc_sorted].
  rewrite sort_desc_perm. unfold ranking_input. rewrite bucket_of_load. reflexivity.
Qed.

(** ** Fetching *)

Lemma attempts_app l l' : attempts (l ++ l') = attempts l + attempts l'.
Proof. unfold attempts. rewrite List.filter_app, length_app. reflexivity. Qed.

Lemma fetch_from_bounded code prov a r :
  attempts (fst (fetch_from code prov a r)) <= r /\
  forall b, snd (fetch_from code prov a r) = Some b ->
    info b = Some ∅ \/ exists i inf, r_info (prov i) = IInfo inf /\ info b = Some inf.
Proof.
  revert a. induction r as [|r IH]; intros a; [split; [cbn; lia | discriminate]|].
  cbn [fetch_from]. destruct (r_hist (prov a)) as [msg| |] eqn:Eh.
  - destruct (IH (S a)) as [IHa IHb].
    destruct (fetch_from code prov (S a) r) as [evs res] eqn:Ef. cbn [fst snd] in IHa, IHb.
    destruct (is_rate_limit msg), (Nat.ltb a (max_retries - 1));
      (split; [cbn [fst]; rewrite ?attempts_app; remember (attempts evs) as k; cbn; lia
              | cbn [snd]; first [exact IHb | discriminate]]).
  - split; [cbn; lia | discriminate].
  - destruct (r_info (prov a)) as [|inf] eqn:Ei; cbn; (split; [lia|]);
      intros b [= <-]; cbn; [left; reflexivity | right; exists a, inf; split; auto].
Qed.

(** X9: whatever the provider does, [fetch_stock_data] queries the price
    history at most three times; a fetched bundle always carries an info
    mapping: the one the provider returned at some attempt, or the empty
    mapping when the info request failed. *)
Theorem fetch_attempts_bounded code prov :
  attempts (fst (fetch_stock_data code prov)) <= max_retries /\
  forall b, snd (fetch_stock_data code prov) = Some b ->
    info b = Some ∅ \/ exists i inf, r_info (prov i) = IInfo inf /\ info b = Some inf.
Proof. apply fetch_from_bounded. Qed.

(** X10: a provider that keeps answering with a rate-limit error is queried
    three times, with the warnings and waits of 2 then 4 seconds between
    the queries, and the fetch ends with the rate-limit error message and
    no data. *)
Theorem rate_limit_escalates code prov :
  (forall i, exists msg, r_hist (prov i) = HRaise msg /\ is_rate_limit msg = true) ->
  fetch_stock_data code prov =
    ([Sleep 1; QueryHistory (code ++ ".T"); ShowRateWait 2; Sleep 2;
      Sleep 1; QueryHistory (code ++ ".T"); ShowRateWait 4; Sleep 4;
      Sleep 1; QueryHistory (code ++ ".T"); ShowRateLimitError], None).
Proof.
  intros H.
  destruct (H 0) as [m0 [E0 R0]], (H 1) as [m1 [E1 R1]], (H 2) as [m2 [E2 R2]].
  unfold fetch_stock_data, max_retries.
  cbn [fetch_from]. rewrite E0, R0. cbn [Nat.ltb Nat.leb max_retries Nat.sub].
  cbn [fetch_from]. rewrite E1, R1. cbn [Nat.ltb Nat.leb max_retries Nat.sub].
  cbn [fetch_from]. rewrite E2, R2. cbn [Nat.ltb Nat.leb max_retries Nat.sub].
  reflexivity.
Qed.

Lemma rate_limit_escalates_witness :
  fetch_stock_data "7203" (always_raises "429 Client Error: Too Many Requests") =
    ([Sleep 1; QueryHistory ("7203" ++ ".T"); ShowRateWait 2; Sleep 2;
      Sleep 1; QueryHistory ("7203" ++ ".T"); ShowRateWait 4; Sleep 4;
      Sleep 1; QueryHistory ("7203" ++ ".T"); ShowRateLimitError], None).
Proof.
  apply rate_limit_escalates. intros i.
  exists "429 Client Error: Too Many Requests". split; [reflexivity | vm_compute; reflexivity].
Defined.

(** X11: when the price history loads but the info request fails, the fetch
    still succeeds with the name "銘柄<code>" and an empty info mapping, and
    the analysis then scores it at the neutral 50. *)
Theorem info_failure_scores_50 code prov :
  r_hist (prov 0) = HData -> r_info (prov 0) = IRaise ->
  fetch_stock_data code prov =
    ([Sleep 1; QueryHistory (code ++ ".T"); Sleep 1; QueryInfo (code ++ ".T")],
     Some (mkBundle (VStr ("銘柄" ++ code)) (Some ∅))) /\
  calculate_comprehensive_score (Some (mkBundle (VStr ("銘柄" ++ code)) (Some ∅)))
    = Ok (50, [("note", BNote note_text)]).
Proof.
  intros Eh Ei. split.
  - unfold fetch_stock_data, max_retries. cbn [fetch_from]. rewrite Eh, Ei. reflexivity.
  - apply calc_fallback. right. eexists. split; [reflexivity|]. right. reflexivity.
Qed.

Lemma info_failure_scores_50_witness :
  fetch_stock_data "7203" (fun _ => mkResp HData IRaise) =
    ([Sleep 1; QueryHistory ("7203" ++ ".T"); Sleep 1; QueryInfo ("7203" ++ ".T")],
     Some (mkBundle (VStr ("銘柄" ++ "7203")) (Some ∅))) /\
  calculate_comprehensive_score (Some (mkBundle (VStr ("銘柄" ++ "7203")) (Some ∅)))
    = Ok (50, [("note", BNote note_text)]).
Proof. apply info_failure_scores_50; reflexivity. Defined.

(** ** One press of the analyse button *)

(** X12: a press of the analyse button writes the history and the ranking
    only when the analysis completes: without a code, when the fetch fails
    or when the scoring raises, the stored files are left as they were;
    after a completed analysis the newest history record is that analysis,
    with its code, score, breakdown and time. *)
Theorem analyze_saves_only_on_success code d m prov st :
  match analyze code d m prov st with
  | (_, Analysed sc sd, st') =>
      exists name, st' = save_history d m code name sc sd st /\
        last (load_history st') = Some (mkEntry code name sc sd d)
  | (_, _, st') => st' = st
  end.
Proof.
  unfold analyze. destruct (String.eqb code "") ; [reflexivity|].
  destruct (fetch_stock_data code prov) as [evs [b|]]; [|reflexivity].
  destruct (calculate_comprehensive_score (Some b)) as [[sc sd]|e]; [|reflexivity].
  exists (company_name b). split; [reflexivity|].
  apply py_last_snoc_last. lia.
Qed.

(** X13: when every info mapping the provider returns is well typed, a press
    with a non-empty code either ends with the fetch failure or completes
    with a score of at most 100: the scoring never raises. *)
Theorem analyze_well_typed_outcome code d m prov st :
  (forall i inf, r_info (prov i) = IInfo inf -> well_typed inf) ->
  code <> "" ->
  match analyze code d m prov st with
  | (_, o, _) => o = FetchFailed \/ exists sc sd, o = Analysed sc sd /\ sc <= 100
  end.
Proof.
  intros Hwt Hc. unfold analyze.
  apply String.eqb_neq in Hc. rewrite Hc.
  destruct (fetch_from_bounded code prov 0 max_retries) as [_ Hb]. fold (fetch_stock_data code prov) in Hb.
  destruct (fetch_stock_data code prov) as [evs [b|]]; [|left; reflexivity].
  assert (Hs : exists sc sd, calculate_comprehensive_score (Some b) = Ok (sc, sd) /\ sc <= 100).
  { destruct (Hb b eq_refl) as [Hi | (i & inf & Ei & Hi)].
    - rewrite calc_fallback by (right; exists b; split; [reflexivity | right; exact Hi]).
      do 2 eexists. split; [reflexivity | lia].
    - destruct (decide (inf = ∅)) as [->|Hne].
      + rewrite calc_fallback by (right; exists b; split; [reflexivity | right; exact Hi]).
        do 2 eexists. split; [reflexivity | lia].
      + destruct (calc_result _ _ Hi Hne (Hwt _ _ Ei))
          as (d1 & d2 & d3 & d4 & d5 & d6 & d7 & d8 & d9 &
              _ & _ & _ & _ & _ & _ & _ & _ & _ &
              B1 & B2 & B3 & B4 & B5 & B6 & B7 & B8 & B9 & ->).
        do 2 eexists. split; [reflexivity|]. cbn. lia. }
  destruct Hs as (sc & sd & -> & Hle). right. exists sc, sd. split; [reflexivity | exact Hle].
Qed.

Lemma analyze_well_typed_outcome_witness :
  match analyze "7203" "2026-10-01 09:00:00" "2026-10"
          (fun _ => mkResp HData (IInfo scenario_info)) empty_store with
  | (_, o, _) => o = FetchFailed \/ exists sc sd, o = Analysed sc sd /\ sc <= 100
  end.
Proof.
  apply analyze_well_typed_outcome; [|discriminate].
  intros i inf H. injection H as <-.
  apply (bool_decide_unpack _). vm_compute. exact I.
Defined.

(** ** The candlestick chart *)






(** ** The metric row *)

(** X15: when [marketCap] is missing or a number and the PER, PBR and
    dividend yield fields are missing, null or numbers, the metric row
    never fails: the market value is shown as [mc / 10^12] with the label
    兆円 above 10^12 and otherwise as [mc / 10^9] with the label 億円 (a
    division by 10^9, not by the 10^8 that 億 stands for; 0 when missing),
    and each of the other three shows "N/A" exactly when it is missing,
    null or zero. *)
Theorem metrics_on_numbers inf :
  (forall v, inf !! "marketCap" = Some v -> exists q, v = VNum q) ->
  (forall k v, In k ["trailingPE"; "priceToBook"; "dividendYield"] ->
     inf !! k = Some v -> v = VNone \/ exists q, v = VNum q) ->
  let mc := field_num inf "marketCap" in
  let pe := field_num inf "trailingPE" in
  let pb := field_num inf "priceToBook" in
  let dy := field_num inf "dividendYield" in
  metrics inf =
    Ok [if Qltb 1000000000000 mc then Cho (mc / 1000000000000) else Oku (mc / 1000000000);
        if Qeq_bool pe 0 then MNA else Fix2m pe;
        if Qeq_bool pb 0 then MNA else Fix2m pb;
        if Qeq_bool dy 0 then MNA else Pct2m (dy * 100)].
Proof.
  intros Hmc Hk. cbn zeta.
  assert (Hr : forall k, In k ["trailingPE"; "priceToBook"; "dividendYield"] ->
            get_or inf k (VNum 0) = VNone \/ get_or inf k (VNum 0) = VNum (field_num inf k)).
  { intros k Hin. unfold get_or, field_num. destruct (inf !! k) as [v|] eqn:E; [|right; reflexivity].
    destruct (Hk k v Hin E) as [->|[q ->]]; [left|right]; reflexivity. }
  assert (Hm : get_or inf "marketCap" (VNum 0) = VNum (field_num inf "marketCap")).
  { unfold get_or, field_num. destruct (inf !! "marketCap") as [v|] eqn:E; [|reflexivity].
    destruct (Hmc v eq_refl) as [q ->]. reflexivity. }
  assert (Z : forall k, get_or inf k (VNum 0) = VNone -> field_num inf k = 0%Q).
  { intros k. unfold get_or, field_num. destruct (inf !! k) as [[]|]; cbn; congruence. }
  unfold metrics, market_cap_metric, ratio_metric, yield_metric. rewrite Hm.
  destruct (Hr "trailingPE" ltac:(cbn; tauto)) as [E1|E1];
  destruct (Hr "priceToBook" ltac:(cbn; tauto)) as [E2|E2];
  destruct (Hr "dividendYield" ltac:(cbn; tauto)) as [E3|E3];
  rewrite ?E1, ?E2, ?E3; rewrite ?(Z _ E1), ?(Z _ E2), ?(Z _ E3);
  rewrite ?Qeq_bool_refl;
  cbn [truthy py_gt pbind py_div_by py_fmt_f py_mul100 negb];
  destruct (Qltb _ _);
  repeat match goal with |- context [Qeq_bool ?a ?b] => destruct (Qeq_bool a b) end;
  reflexivity.
Qed.

Lemma metrics_on_numbers_witness :
  metrics {[ "marketCap" := VNum 30000000000000; "trailingPE" := VNone ]} =
    Ok [if Qltb 1000000000000 (field_num {[ "marketCap" := VNum 30000000000000; "trailingPE" := VNone ]} "marketCap")
        then Cho (field_num {[ "marketCap" := VNum 30000000000000; "trailingPE" := VNone ]} "marketCap" / 1000000000000)
        else Oku (field_num {[ "marketCap" := VNum 30000000000000; "trailingPE" := VNone ]} "marketCap" / 1000000000);
        if Qeq_bool (field_num {[ "marketCap" := VNum 30000000000000; "trailingPE" := VNone ]} "trailingPE") 0 then MNA
        else Fix2m (field_num {[ "marketCap" := VNum 30000000000000; "trailingPE" := VNone ]} "trailingPE");
        if Qeq_bool (field_num {[ "marketCap" := VNum 30000000000000; "trailingPE" := VNone ]} "priceToBook") 0 then MNA
        else Fix2m (field_num {[ "marketCap" := VNum 30000000000000; "trailingPE" := VNone ]} "priceToBook");
        if Qeq_bool (field_num {[ "marketCap" := VNum 30000000000000; "trailingPE" := VNone ]} "dividendYield") 0 then MNA
        else Pct2m (field_num {[ "marketCap" := VNum 30000000000000; "trailingPE" := VNone ]} "dividendYield" * 100)].
Proof.
  apply metrics_on_numbers.
  - intros v H. vm_compute in H. injection H as <-. eexists. reflexivity.
  - intros k v Hin H. cbn in Hin. repeat destruct Hin as [<-|Hin]; try contradiction;
      vm_compute in H; try discriminate. injection H as <-. left. reflexivity.
Defined.

(** X16: a [marketCap] field that is present but null makes the comparison
    with 10^12 raise [TypeError], so the metric row fails. *)
Theorem metrics_null_market_cap inf :
  inf !! "marketCap" = Some VNone -> metrics inf = Raise TypeError.
Proof.
  intros H. unfold metrics, market_cap_metric, get_or. rewrite H. reflexivity.
Qed.

Lemma metrics_null_market_cap_witness :
  metrics {[ "marketCap" := VNone ]} = Raise TypeError.
Proof. apply metrics_null_market_cap. reflexivity. Defined.

(** ** The price statistics *)

Lemma Qmax_cases a b : Qmax a b = a \/ Qmax a b = b.
Proof. unfold Qmax, GenericMinMax.gmax. destruct (a ?= b)%Q; auto. Qed.

Lemma Qmin_cases a b : Qmin a b = a \/ Qmin a b = b.
Proof. unfold Qmin, GenericMinMax.gmin. destruct (a ?= b)%Q; auto. Qed.

Lemma fold_max_bounds l a :
  (a <= fold_left Qmax l a)%Q /\ (forall x, In x l -> x <= fold_left Qmax l a)%Q /\
  (fold_left Qmax l a = a \/ In (fold_left Qmax l a) l).
Proof.
  revert a. induction l as [|x t IH]; intros a; cbn.
  - split; [apply Qle_refl|]. split; [intros _ []|left; reflexivity].
  - destruct (IH (Qmax a x)) as (H1 & H2 & H3). split; [|split].
    + eapply Qle_trans; [apply Q.le_max_l | exact H1].
    + intros y [<-|Hy]; [eapply Qle_trans; [apply Q.le_max_r | exact H1] | auto].
    + destruct H3 as [->|H3]; [|right; right; exact H3].
      destruct (Qmax_cases a x) as [->| ->]; [left; reflexivity | right; left; reflexivity].
Qed.

Lemma fold_min_bounds l a :
  (fold_left Qmin l a <= a)%Q /\ (forall x, In x l -> fold_left Qmin l a <= x)%Q /\
  (fold_left Qmin l a = a \/ In (fold_left Qmin l a) l).
Proof.
  revert a. induction l as [|x t IH]; intros a; cbn.
  - split; [apply Qle_refl|]. split; [intros _ []|left; reflexivity].
  - destruct (IH (Qmin a x)) as (H1 & H2 & H3). split; [|split].
    + eapply Qle_trans; [exact H1 | apply Q.le_min_l].
    + intros y [<-|Hy]; [eapply Qle_trans; [exact H1 | apply Q.le_min_r] | auto].
    + destruct H3 as [->|H3]; [|right; right; exact H3].
      destruct (Qmin_cases a x) as [->| ->]; [left; reflexivity | right; left; reflexivity].
Qed.

(** X17: the statistics under the chart raise an index error exactly for an
    empty frame; otherwise the current value is the close of the last row,
    the change against the previous close is shown exactly when there are
    two rows or more, and the period high and low are the largest high and
    the smallest low of the rows, each attained by some row. *)
Theorem price_stats_summary rows :
  (price_stats rows = StatsIndexError <-> rows = []) /\
  forall s, price_stats rows = StatsOk s ->
    (exists pre lr, rows = (pre ++ [lr])%list /\ last_close s = o_close lr) /\
    (change s = None <-> length rows = 1) /\
    (forall r, In r rows -> o_high r <= period_high s /\ period_low s <= o_low r)%Q /\
    (exists r, In r rows /\ o_high r = period_high s) /\
    (exists r, In r rows /\ o_low r = period_low s).
Proof.
  unfold price_stats.
  assert (Hrows : rows = rev (rev rows)) by (symmetry; apply rev_involutive).
  destruct (rev rows) as [|lr before] eqn:E.
  - split; [split; [intros _; rewrite Hrows; reflexivity | reflexivity]|].
    intros s H. discriminate.
  - assert (Hin : In lr rows) by (rewrite Hrows; cbn; apply in_or_app; right; left; reflexivity).
    split; [split; [discriminate | intros ->; discriminate]|].
    intros s H. injection H as <-. cbn [last_close change period_high period_low].
    destruct (fold_max_bounds (List.map o_high rows) (o_high lr)) as (M1 & M2 & M3).
    destruct (fold_min_bounds (List.map o_low rows) (o_low lr)) as (N1 & N2 & N3).
    split; [|split; [|split; [|split]]].
    + exists (rev before), lr. split; [|reflexivity]. rewrite Hrows. reflexivity.
    + assert (L : length rows = S (length before))
        by (rewrite Hrows; cbn; rewrite length_app, length_rev; cbn; lia).
      rewrite L. destruct before; split; intros H; cbn in *; try discriminate; try lia; reflexivity.
    + intros r Hr. split; [apply M2 | apply N2]; apply in_map; exact Hr.
    + destruct M3 as [->|M3]; [exists lr; split; [exact Hin | reflexivity]|].
      apply in_map_iff in M3 as [r [Hr Hin']]. exists r. split; assumption.
    + destruct N3 as [->|N3]; [exists lr; split; [exact Hin | reflexivity]|].
      apply in_map_iff in N3 as [r [Hr Hin']]. exists r. split; assumption.
Qed.

Lemma price_stats_summary_witness :
  (price_stats [mkOhlc 1 3 1 2; mkOhlc 2 4 2 3] = StatsIndexError <->
     [mkOhlc 1 3 1 2; mkOhlc 2 4 2 3] = []) /\
  forall s, price_stats [mkOhlc 1 3 1 2; mkOhlc 2 4 2 3] = StatsOk s ->
    (exists pre lr, [mkOhlc 1 3 1 2; mkOhlc 2 4 2 3] = (pre ++ [lr])%list /\ last_close s = o_close lr) /\
    (change s = None <-> length [mkOhlc 1 3 1 2; mkOhlc 2 4 2 3] = 1) /\
    (forall r, In r [mkOhlc 1 3 1 2; mkOhlc 2 4 2 3] ->
       o_high r <= period_high s /\ period_low s <= o_low r)%Q /\
    (exists r, In r [mkOhlc 1 3 1 2; mkOhlc 2 4 2 3] /\ o_high r = period_high s) /\
    (exists r, In r [mkOhlc 1 3 1 2; mkOhlc 2 4 2 3] /\ o_low r = period_low s).
Proof. apply price_stats_summary. Defined.
